(** * supyr_struct.buffer: a shallow embedding and its verified properties

    The Python module [supyr_struct/buffer.py] provides cursor based
    buffers over [bytes], [bytearray] and [mmap.mmap], a resolver
    ([get_rawdata]) and a context manager ([get_rawdata_context]).

    Python objects are modelled as follows:
    - integers are [Z]; byte strings are [list byte];
    - a method that may mutate [self] or raise is a computation in the
      state-and-exception monad [M S A := S -> result A * S];
    - dynamically typed arguments ([count], [offset], [pos], [whence])
      range over [pyarg]: [None], an [int] or a [str];
    - objects with identity live in a [heap] ([gmap loc hobj]). *)

From Stdlib Require Import ZArith List Lia Bool.
From Stdlib Require Import Strings.Byte.
From stdpp Require Import gmap strings list fin_maps.

Open Scope Z_scope.

(** ** Python values, exceptions and the method monad *)

Abbreviation bytes := (list byte).

(** The exceptions the module raises or lets through.  In Python 3
    [IOError] is an alias of [OSError]. *)
Inductive exn :=
| AssertionError | IndexError | ValueError | TypeError
| OSError | AttributeError | BufferError | OverflowError.

Definition exn_eqb (a b : exn) : bool :=
  match a, b with
  | AssertionError, AssertionError | IndexError, IndexError
  | ValueError, ValueError | TypeError, TypeError | OSError, OSError
  | AttributeError, AttributeError | BufferError, BufferError
  | OverflowError, OverflowError => true
  | _, _ => false
  end.

Inductive result (A : Type) :=
| Ok (a : A)
| Raise (e : exn).
Arguments Ok {A} a.
Arguments Raise {A} e.

(** A dynamically typed argument: [None], an [int], or a [str] (the
    representative of an argument of the wrong type). *)
Inductive pyarg :=
| PyNone
| PyInt (z : Z)
| PyStr (s : string).

Definition M (S A : Type) : Type := S -> result A * S.

Definition ret {S A} (a : A) : M S A := fun s => (Ok a, s).
Definition raise {S A} (e : exn) : M S A := fun s => (Raise e, s).
Definition lift {S A} (r : result A) : M S A := fun s => (r, s).
Definition get {S} : M S S := fun s => (Ok s, s).
Definition put {S} (s : S) : M S unit := fun _ => (Ok tt, s).
Definition bind {S A B} (m : M S A) (k : A -> M S B) : M S B :=
  fun s => match m s with
           | (Ok a, s') => k a s'
           | (Raise e, s') => (Raise e, s')
           end.

(** [try: body  except E: handler] where [handles] recognises [E].  State
    changes made by [body] before it raised are kept, as in Python. *)
Definition try_except {S A} (body : M S A) (handles : exn -> bool)
    (handler : M S A) : M S A :=
  fun s => match body s with
           | (Raise e, s') => if handles e then handler s' else (Raise e, s')
           | r => r
           end.

(** [assert c] *)
Definition py_assert {S} (c : bool) : M S unit :=
  if c then ret tt else raise AssertionError.

Declare Scope py_scope.
Delimit Scope py_scope with py.
Notation "x <- m ;; k" := (bind m (fun x => k))
  (at level 100, m at next level, right associativity) : py_scope.
Notation "m ;;; k" := (bind m (fun _ => k))
  (at level 100, right associativity) : py_scope.

(** [a + b] on dynamically typed operands. *)
Definition py_add (a b : pyarg) : result pyarg :=
  match a, b with
  | PyInt x, PyInt y => Ok (PyInt (x + y))
  | PyStr s, PyStr t => Ok (PyStr (s +:+ t))
  | _, _ => Raise TypeError
  end.

(** [a < n] and [a >= n] for an [int] [n]. *)
Definition py_lt_int (a : pyarg) (n : Z) : result bool :=
  match a with PyInt x => Ok (x <? n) | _ => Raise TypeError end.
Definition py_ge_int (a : pyarg) (n : Z) : result bool :=
  match a with PyInt x => Ok (n <=? x) | _ => Raise TypeError end.

(** [a is None] *)
Definition is_None (a : pyarg) : bool :=
  match a with PyNone => true | _ => false end.

(** ** Slicing ([PySlice_AdjustIndices] with step 1) *)

Definition len {A} (l : list A) : Z := Z.of_nat (length l).

(** A slice bound: negative bounds count from the end, then clamp. *)
Definition adjust_index (i n : Z) : Z :=
  if i <? 0 then (if i + n <? 0 then 0 else i + n)
  else (if n <=? i then n else i).

(** [l[start:stop]] for integer bounds. *)
Definition slice {A} (l : list A) (start stop : Z) : list A :=
  let s := adjust_index start (len l) in
  let e := adjust_index stop (len l) in
  if s <? e then take (Z.to_nat (e - s)) (drop (Z.to_nat s) l) else [].

(** [l[start:]] *)
Definition slice_from {A} (l : list A) (start : Z) : list A :=
  drop (Z.to_nat (adjust_index start (len l))) l.

(** [l[start:stop]] with dynamically typed bounds: a [str] bound raises
    [TypeError], [None] is the default bound. *)
Definition py_getslice {A} (l : list A) (start stop : pyarg)
  : result (list A) :=
  match start, stop with
  | PyStr _, _ | _, PyStr _ => Raise TypeError
  | PyInt a, PyInt b => Ok (slice l a b)
  | PyInt a, PyNone => Ok (slice_from l a)
  | PyNone, PyInt b => Ok (slice l 0 b)
  | PyNone, PyNone => Ok l
  end.

(** [l[start:stop] = v] on a [bytearray]: the adjusted range (with
    [stop] raised to [start] when it lies before it) is replaced by [v]. *)
Definition setslice {A} (l : list A) (start stop : Z) (v : list A) : list A :=
  let s := adjust_index start (len l) in
  let e := adjust_index stop (len l) in
  let e' := if e <? s then s else e in
  take (Z.to_nat s) l ++ v ++ drop (Z.to_nat e') l.

(** [os.SEEK_SET], [os.SEEK_CUR], [os.SEEK_END] *)
Definition SEEK_SET : Z := 0.
Definition SEEK_CUR : Z := 1.
Definition SEEK_END : Z := 2.

Definition is_TypeError (e : exn) : bool := exn_eqb e TypeError.

(** ** class Buffer *)
Module Buffer.
(** [Buffer.__init__]: makes sure there is always a [self._pos]. *)
Definition __init__ : Z := 0.

Local Open Scope py_scope.

(** The methods [Buffer.peek] calls on [self], which a subclass
    overloads; [seek] is called with one argument, so with the default
    [whence]. *)
Class Methods (S : Type) := {
  tell : M S Z;
  seek : Z -> M S unit;
  read : pyarg -> M S bytes
}.

(** [Buffer.peek], the implementation a subclass inherits when it does
    not define its own; [offset] is [None] or an integer. *)
Definition peek {S} `{Methods S} (count : pyarg) (offset : option Z)
  : M S bytes :=
  pos <- tell;;
  (match offset with
   | Some o => seek o
   | None => ret tt
   end);;;
  data <- read count;;
  seek pos;;;
  ret data.
End Buffer.

(** ** class BytesBuffer(bytes, Buffer) *)
Module BytesBuffer.
Local Open Scope py_scope.

(** [self] is the byte string itself plus the attribute [_pos]. *)
Record t := mk { data : bytes; _pos : Z }.

(** [BytesBuffer(rawdata)]: [bytes.__new__] copies the content and
    [Buffer.__init__] (the first [__init__] on the MRO) sets [_pos]. *)
Definition new (rawdata : bytes) : t :=
  {| data := rawdata; _pos := Buffer.__init__ |}.

Definition set_pos (p : Z) : M t unit :=
  fun self => (Ok tt, {| data := data self; _pos := p |}).

Definition peek (count offset : pyarg) : M t bytes :=
  self <- get;;
  let pos := if is_None offset then PyInt (_pos self) else offset in
  try_except
    (s <- lift (py_add pos count);;
     c <- lift (py_lt_int s (len (data self)));;
     if c : bool then
       stop <- lift (py_add pos count);;
       lift (py_getslice (data self) pos stop)
     else
       stop <- lift (py_add pos (PyInt (len (data self))));;
       lift (py_getslice (data self) pos stop))
    is_TypeError
    (py_assert (is_None count);;;
     lift (py_getslice (data self) pos PyNone)).

Definition read (count : pyarg) : M t bytes :=
  try_except
    (self <- get;;
     s <- lift (py_add (PyInt (_pos self)) count);;
     c <- lift (py_lt_int s (len (data self)));;
     let old_pos := _pos self in
     (if c : bool then
        match s with
        | PyInt p => set_pos p
        | _ => raise TypeError
        end
      else set_pos (len (data self)));;;
     self' <- get;;
     ret (slice (data self') old_pos (_pos self')))
    is_TypeError
    (py_assert (is_None count);;;
     self <- get;;
     let old_pos := _pos self in
     set_pos (len (data self));;;
     ret (slice_from (data self) old_pos)).

(** The three recognised branches of [seek] share their tail:
    [assert pos >= 0], the [range] test, the assignment. *)
Definition seek_to (pos : pyarg) : M t unit :=
  self <- get;;
  nonneg <- lift (py_ge_int pos 0);;
  py_assert nonneg;;;
  match pos with
  | PyInt p =>
      (* pos not in range(len(self) + 1) *)
      if negb ((0 <=? p) && (p <? len (data self) + 1))
      then raise IndexError
      else set_pos p
  | _ => raise TypeError
  end.

Definition seek (pos whence : pyarg) : M t unit :=
  self <- get;;
  match whence with
  | PyInt w =>
      if w =? SEEK_SET then seek_to pos
      else if w =? SEEK_CUR then
        pos' <- lift (py_add (PyInt (_pos self)) pos);;
        seek_to pos'
      else if w =? SEEK_END then
        pos' <- lift (py_add pos (PyInt (len (data self))));;
        seek_to pos'
      else raise ValueError
  | _ => raise TypeError
  end.

Definition tell : M t Z := self <- get;; ret (_pos self).

(** [write] raises [IOError] (an alias of [OSError]). *)
Definition write (s : bytes) : M t unit := raise OSError.

(** [Buffer.size]: [len(self)]. *)
Definition size : M t Z := self <- get;; ret (len (data self)).
End BytesBuffer.

(** ** class BytearrayBuffer(bytearray, Buffer) *)
Module BytearrayBuffer.
Local Open Scope py_scope.

Record t := mk { data : bytes; _pos : Z }.

(** [__init__]: [bytearray.__init__(self, *args)] fills the new object
    with a copy of the argument's bytes, [Buffer.__init__] sets [_pos]. *)
Definition new (rawdata : bytes) : t :=
  {| data := rawdata; _pos := Buffer.__init__ |}.

Definition set_pos (p : Z) : M t unit :=
  fun self => (Ok tt, {| data := data self; _pos := p |}).
Definition set_data (d : bytes) : M t unit :=
  fun self => (Ok tt, {| data := d; _pos := _pos self |}).

Definition peek (count offset : pyarg) : M t bytes :=
  self <- get;;
  let pos := if is_None offset then PyInt (_pos self) else offset in
  try_except
    (s <- lift (py_add pos count);;
     c <- lift (py_lt_int s (len (data self)));;
     if c : bool then
       stop <- lift (py_add pos count);;
       lift (py_getslice (data self) pos stop)
     else
       stop <- lift (py_add pos (PyInt (len (data self))));;
       lift (py_getslice (data self) pos stop))
    is_TypeError
    (py_assert (is_None count);;;
     lift (py_getslice (data self) pos PyNone)).

Definition read (count : pyarg) : M t bytes :=
  try_except
    (self <- get;;
     s <- lift (py_add (PyInt (_pos self)) count);;
     c <- lift (py_lt_int s (len (data self)));;
     let old_pos := _pos self in
     (if c : bool then
        match s with
        | PyInt p => set_pos p
        | _ => raise TypeError
        end
      else set_pos (len (data self)));;;
     self' <- get;;
     ret (slice (data self') old_pos (_pos self')))
    is_TypeError
    (py_assert (is_None count);;;
     self <- get;;
     let old_pos := _pos self in
     set_pos (len (data self));;;
     ret (slice_from (data self) old_pos)).

(** [seek]: [pos] is an integer here; the cursor is assigned without
    any check. *)
Definition seek (pos : Z) (whence : pyarg) : M t unit :=
  self <- get;;
  match whence with
  | PyInt w =>
      if w =? SEEK_SET then set_pos pos
      else if w =? SEEK_CUR then set_pos (_pos self + pos)
      else if w =? SEEK_END then set_pos (pos + len (data self))
      else raise ValueError
  | _ => raise TypeError
  end.

Definition tell : M t Z := self <- get;; ret (_pos self).

(** [write]: [s] is the result of [memoryview(s).tobytes()]. *)
Definition write (s : bytes) : M t unit :=
  self <- get;;
  let str_len := len s in
  (if len (data self) <? str_len + _pos self
   then set_data (data self ++
                  replicate (Z.to_nat (str_len - len (data self) + _pos self)) x00)
   else ret tt);;;
  self' <- get;;
  set_data (setslice (data self') (_pos self') (_pos self' + str_len) s);;;
  set_pos (_pos self + str_len).

(** [Buffer.size]: [len(self)]. *)
Definition size : M t Z := self <- get;; ret (len (data self)).
End BytearrayBuffer.

(** The two in-memory buffers as subclasses of [Buffer]. *)
#[export] Instance BytesBuffer_methods : Buffer.Methods BytesBuffer.t := {|
  Buffer.tell := BytesBuffer.tell;
  Buffer.seek := fun p => BytesBuffer.seek (PyInt p) (PyInt SEEK_SET);
  Buffer.read := BytesBuffer.read
|}.

#[export] Instance BytearrayBuffer_methods
  : Buffer.Methods BytearrayBuffer.t := {|
  Buffer.tell := BytearrayBuffer.tell;
  Buffer.seek := fun p => BytearrayBuffer.seek p (PyInt SEEK_SET);
  Buffer.read := BytearrayBuffer.read
|}.

(** ** class PeekableMmap(mmap) *)

(** [mmap] takes its integer arguments as C values: offsets, counts
    and sizes as [Py_ssize_t] (here of a 64-bit build), [whence] as an
    [int]; an integer outside the range raises [OverflowError]. *)
Definition PY_SSIZE_T_MAX : Z := 2 ^ 63 - 1.

Definition fits_ssize_t (z : Z) : bool :=
  (- PY_SSIZE_T_MAX - 1 <=? z) && (z <=? PY_SSIZE_T_MAX).

Definition fits_int (z : Z) : bool := (- 2 ^ 31 <=? z) && (z <? 2 ^ 31).

Module PeekableMmap.
Local Open Scope py_scope.

(** The state of an [mmap.mmap] object: the mapped bytes, the cursor,
    whether it was closed, and the number of exported buffer views
    (live [memoryview]s). *)
Record t := mk { data : bytes; pos : Z; closed : bool; exports : nat }.

(** The cursor lies inside the mapped region, whose size is one
    [Py_ssize_t] can hold.  This is a condition on a state, not an
    invariant of the class: a new mapping satisfies it and [tell],
    [seek], [read], [peek] and [close] keep it, but [resize], and with
    it [clear_cache], can shrink the region below the cursor. *)
Definition wf (m : t) : Prop :=
  0 <= pos m <= len (data m) /\ len (data m) <= PY_SSIZE_T_MAX.

Definition set_pos (p : Z) : M t unit :=
  fun self => (Ok tt, {| data := data self; pos := p;
                         closed := closed self; exports := exports self |}).

(** [CHECK_VALID]: every method of a closed mapping raises [ValueError]. *)
Definition check_valid : M t unit :=
  self <- get;; if closed self then raise ValueError else ret tt.

(** [mmap.tell()] *)
Definition tell : M t Z := check_valid;;; self <- get;; ret (pos self).

(** [mmap.seek(pos, whence)]: the arguments are converted first
    ([TypeError], [OverflowError]); a target outside [0, size] raises
    [ValueError]; otherwise the cursor moves. *)
Definition seek (dist : pyarg) (whence : Z) : M t unit :=
  check_valid;;;
  self <- get;;
  match dist with
  | PyInt d =>
      if negb (fits_ssize_t d) then raise OverflowError
      else if negb (fits_int whence) then raise OverflowError
      else if (0 <=? whence) && (whence <=? 2) then
        let where_ := if whence =? SEEK_SET then d
                      else if whence =? SEEK_CUR then pos self + d
                      else len (data self) + d in
        if (len (data self) <? where_) || (where_ <? 0)
        then raise ValueError
        else set_pos where_
      else raise ValueError
  | _ => raise TypeError
  end.

(** [mmap.read(n)]: [n] is converted first ([None] stands for the
    largest count); a negative [n] or an [n] beyond the remaining bytes
    reads everything that remains. *)
Definition read (n : pyarg) : M t bytes :=
  check_valid;;;
  self <- get;;
  requested <- match n with
               | PyNone => ret PY_SSIZE_T_MAX
               | PyInt k => if fits_ssize_t k then ret k
                            else raise OverflowError
               | PyStr _ => raise TypeError
               end;;
  let remaining := if pos self <? len (data self)
                   then len (data self) - pos self else 0 in
  let num_bytes := if (requested <? 0) || (remaining <? requested)
                   then remaining else requested in
  set_pos (pos self + num_bytes);;;
  ret (take (Z.to_nat num_bytes) (drop (Z.to_nat (pos self)) (data self))).

(** [mmap.close()]: refused while buffer views are exported. *)
Definition close : M t unit :=
  fun self =>
    if (0 <? exports self)%nat then (Raise BufferError, self)
    else (Ok tt, {| data := data self; pos := pos self;
                    closed := true; exports := exports self |}).

(** [mmap.resize(newsize)], inherited from [mmap]; [writable] tells
    whether the mapping was made with [ACCESS_WRITE].  The file is cut
    or zero-extended to the new size and mapped anew; the cursor is
    not touched.  (A size of zero is refused by the remapping of
    Linux.) *)
Definition resize (writable : bool) (newsize : pyarg) : M t unit :=
  check_valid;;;
  self <- get;;
  match newsize with
  | PyInt n =>
      if negb (fits_ssize_t n) then raise OverflowError
      else if (0 <? exports self)%nat then raise BufferError
      else if negb writable then raise TypeError
      else if n <? 0 then raise ValueError
      else if n =? 0 then raise OSError
      else
        put {| data := take (Z.to_nat n)
                         (data self ++
                          replicate (Z.to_nat (n - len (data self))) x00);
               pos := pos self; closed := closed self;
               exports := exports self |}
  | _ => raise TypeError
  end.

(** [clear_cache]: [mmap.resize(self, mmap.size(self))]; [file_size]
    is what [mmap.size()] answers, the current size of the mapped
    file. *)
Definition clear_cache (writable : bool) (file_size : Z) : M t unit :=
  check_valid;;;
  resize writable (PyInt file_size).

(** [try: body  except Exception: handler; raise] *)
Definition try_finally_reraise {A} (body : M t A) (handler : M t unit)
  : M t A :=
  fun s => match body s with
           | (Raise e, s') =>
               match handler s' with
               | (Ok _, s'') => (Raise e, s'')
               | (Raise e', s'') => (Raise e', s'')
               end
           | r => r
           end.

Definition peek (count offset : pyarg) : M t bytes :=
  orig_pos <- tell;;
  data <- try_finally_reraise
            ((if is_None offset then ret tt else seek offset SEEK_SET);;;
             read count)
            (seek (PyInt orig_pos) SEEK_SET);;
  seek (PyInt orig_pos) SEEK_SET;;;
  ret data.
End PeekableMmap.

(** ** Objects with identity: the heap and the file system *)

Local Open Scope py_scope.

Abbreviation loc := nat.

(** The open modes [get_rawdata] uses: ['rb'], ['r+b'], ['w+b']. *)
Inductive open_mode := mode_rb | mode_r_plus_b | mode_w_plus_b.

(** [mmap.ACCESS_READ], [mmap.ACCESS_WRITE] *)
Inductive access_mode := ACCESS_READ | ACCESS_WRITE.

(** An open file object as returned by [Path.open]. *)
Record file_obj := mk_file
  { f_path : string; f_mode : open_mode; f_closed : bool }.

(** Any other object: its truth value and the names of its attributes. *)
Record foreign := mk_foreign { o_truthy : bool; o_attrs : list string }.

Inductive hobj :=
| HBytearray (d : bytes)
| HBytesBuffer (b : BytesBuffer.t)
| HBytearrayBuffer (b : BytearrayBuffer.t)
| HMmap (m : PeekableMmap.t) (access : access_mode)
| HFile (f : file_obj)
| HObject (o : foreign).

(** A Python value: [None], an immutable [bytes] value, or a reference
    to an object of the heap. *)
Inductive pyobj :=
| ONone
| OBytes (b : bytes)
| ORef (l : loc).

(** The world: the heap and the regular files of the file system. *)
Record world := mk_world
  { heap : gmap loc hobj; fs : gmap string bytes }.

Definition set_heap (h : gmap loc hobj) (w : world) : world :=
  {| heap := h; fs := fs w |}.
Definition set_fs (f : gmap string bytes) (w : world) : world :=
  {| heap := heap w; fs := f |}.

(** Allocation of a new object at an unused location. *)
Definition alloc (o : hobj) : M world loc :=
  fun w => let l := fresh (dom (heap w)) in
           (Ok l, set_heap (<[l := o]> (heap w)) w).

Definition nonempty {A} (l : list A) : bool :=
  match l with [] => false | _ => true end.

(** [bool(o)] *)
Definition truthy (o : pyobj) : M world bool :=
  fun w =>
    match o with
    | ONone => (Ok false, w)
    | OBytes b => (Ok (nonempty b), w)
    | ORef l =>
        match heap w !! l with
        | Some (HBytearray d) => (Ok (nonempty d), w)
        | Some (HBytesBuffer b) => (Ok (nonempty (BytesBuffer.data b)), w)
        | Some (HBytearrayBuffer b) =>
            (Ok (nonempty (BytearrayBuffer.data b)), w)
        | Some (HMmap m _) =>
            if PeekableMmap.closed m then (Raise ValueError, w)
            else (Ok (nonempty (PeekableMmap.data m)), w)
        | Some (HFile _) => (Ok true, w)
        | Some (HObject o) => (Ok (o_truthy o), w)
        | None => (Ok false, w)
        end
    end.

(** [isinstance(o, bytes)] and the bytes it holds. *)
Definition as_bytes (w : world) (o : pyobj) : option bytes :=
  match o with
  | OBytes b => Some b
  | ORef l => match heap w !! l with
              | Some (HBytesBuffer b) => Some (BytesBuffer.data b)
              | _ => None
              end
  | ONone => None
  end.

(** [isinstance(o, bytearray)] and the bytes it holds. *)
Definition as_bytearray (w : world) (o : pyobj) : option bytes :=
  match o with
  | ORef l => match heap w !! l with
              | Some (HBytearray d) => Some d
              | Some (HBytearrayBuffer b) => Some (BytearrayBuffer.data b)
              | _ => None
              end
  | _ => None
  end.

Definition buffer_attrs : list string :=
  ["read"; "seek"; "size"; "tell"; "peek"; "write"]%string.
Definition stream_attrs : list string :=
  ["read"; "seek"; "size"; "tell"; "write"; "close"]%string.

Definition mem_string (x : string) (l : list string) : bool :=
  existsb (String.eqb x) l.

(** [hasattr(o, name)] for the method names this module looks at. *)
Definition hasattr (w : world) (o : pyobj) (name : string) : bool :=
  match o with
  | ORef l =>
      match heap w !! l with
      | Some (HBytesBuffer _) | Some (HBytearrayBuffer _) =>
          mem_string name buffer_attrs
      | Some (HMmap _ _) => mem_string name ("peek"%string :: stream_attrs)
      | Some (HFile _) => mem_string name stream_attrs
      | Some (HObject o) => mem_string name (o_attrs o)
      | _ => false
      end
  | _ => false
  end.

(** [Path.is_file()] *)
Definition is_file (p : string) : M world bool :=
  w <- get;; ret (bool_decide (is_Some (fs w !! p))).

(** [Path.open(mode)]: the read modes need an existing file, ['w+b']
    creates the file or truncates it. *)
Definition path_open (p : string) (mode : open_mode) : M world loc :=
  w <- get;;
  match mode with
  | mode_w_plus_b =>
      put (set_fs (<[p := []]> (fs w)) w);;;
      alloc (HFile (mk_file p mode false))
  | _ =>
      match fs w !! p with
      | Some _ => alloc (HFile (mk_file p mode false))
      | None => raise OSError
      end
  end.

(** [rawdata_file.close()] *)
Definition file_close (l : loc) : M world unit :=
  fun w => match heap w !! l with
           | Some (HFile f) =>
               (Ok tt, set_heap (<[l := HFile (mk_file (f_path f) (f_mode f) true)]>
                                   (heap w)) w)
           | _ => (Raise AttributeError, w)
           end.

(** [PeekableMmap(rawdata_file.fileno(), 0, access=access)]: maps the
    whole file; an empty file cannot be mapped ([ValueError]). *)
Definition mmap_new (file : loc) (access : access_mode) : M world loc :=
  w <- get;;
  match heap w !! file with
  | Some (HFile f) =>
      match fs w !! f_path f with
      | Some ((_ :: _) as content) =>
          if f_closed f then raise ValueError
          else alloc (HMmap (PeekableMmap.mk content 0 false 0) access)
      | _ => raise ValueError
      end
  | _ => raise AttributeError
  end.

(** [o.close()] *)
Definition py_close (o : pyobj) : M world unit :=
  fun w =>
    match o with
    | ORef l =>
        match heap w !! l with
        | Some (HMmap m a) =>
            let '(r, m') := PeekableMmap.close m in
            (r, set_heap (<[l := HMmap m' a]> (heap w)) w)
        | Some (HFile _) => file_close l w
        | Some (HObject o) =>
            if mem_string "close" (o_attrs o) then (Ok tt, w)
            else (Raise AttributeError, w)
        | _ => (Raise AttributeError, w)
        end
    | _ => (Raise AttributeError, w)
    end.

(** [memoryview(o)] on a mapping: one more exported buffer view. *)
Definition memoryview (o : pyobj) : M world unit :=
  fun w =>
    match o with
    | ORef l =>
        match heap w !! l with
        | Some (HMmap m a) =>
            if PeekableMmap.closed m then (Raise ValueError, w)
            else
              let m' := PeekableMmap.mk (PeekableMmap.data m) (PeekableMmap.pos m)
                          false (S (PeekableMmap.exports m)) in
              (Ok tt, set_heap (<[l := HMmap m' a]> (heap w)) w)
        | _ => (Raise TypeError, w)
        end
    | _ => (Raise TypeError, w)
    end.

(** A method call on the [BytearrayBuffer] stored at [l]. *)
Definition call_BytearrayBuffer {A} (l : loc) (m : M BytearrayBuffer.t A)
  : M world A :=
  fun w =>
    match heap w !! l with
    | Some (HBytearrayBuffer b) =>
        let '(r, b') := m b in
        (r, set_heap (<[l := HBytearrayBuffer b']> (heap w)) w)
    | _ => (Raise AttributeError, w)
    end.

Definition is_ValueError (e : exn) : bool := exn_eqb e ValueError.
Definition is_AttributeError (e : exn) : bool := exn_eqb e AttributeError.

(** ** get_rawdata and get_rawdata_context *)

Section Resolver.
(** [supyr_struct.util.is_path_empty] is imported by the module and
    not defined in it: the resolver is parametrised by it.  Its
    argument is the [filepath] keyword ([None] when absent), after
    [Path(filepath)]. *)
Variable is_path_empty : option string -> bool.

(** [get_rawdata(filepath=..., rawdata=..., writable=...)]; an absent
    [filepath] or [rawdata] keyword is [None]. *)
Definition get_rawdata (filepath : option string) (rawdata : pyobj)
    (writable : bool) : M world pyobj :=
  if negb (is_path_empty filepath) then
    given <- truthy rawdata;;
    if given : bool then raise TypeError
    else
      match filepath with
      | None => raise AttributeError
      | Some path =>
          let access := if negb writable then ACCESS_READ else ACCESS_WRITE in
          open_mode <- (if negb writable then ret mode_rb
                        else
                          existing <- is_file path;;
                          if existing : bool then ret mode_r_plus_b
                          else ret mode_w_plus_b);;
          rawdata_file <- path_open path open_mode;;
          try_except
            (m <- mmap_new rawdata_file access;;
             file_close rawdata_file;;;
             ret (ORef m))
            is_ValueError
            (ret (ORef rawdata_file))
      end
  else
    given <- truthy rawdata;;
    if negb given then ret ONone
    else
      w <- get;;
      match as_bytes w rawdata with
      | Some b =>
          l <- alloc (HBytesBuffer (BytesBuffer.new b));; ret (ORef l)
      | None =>
          match as_bytearray w rawdata with
          | Some d =>
              l <- alloc (HBytearrayBuffer (BytearrayBuffer.new d));;
              ret (ORef l)
          | None =>
              if negb (hasattr w rawdata "read" && hasattr w rawdata "seek")
              then raise TypeError
              else ret rawdata
          end
      end.
End Resolver.

Module get_rawdata_context.
Record t := mk { _rawdata : pyobj; _close_rawdata : bool }.

Definition is_ONone (o : pyobj) : bool :=
  match o with ONone => true | _ => false end.

Section WithPathTest.
Variable is_path_empty : option string -> bool.

Definition __init__ (filepath : option string) (rawdata : pyobj)
    (writable : bool) : M world t :=
  let close_rawdata := is_ONone rawdata in
  r <- get_rawdata is_path_empty filepath rawdata writable;;
  ret {| _rawdata := r; _close_rawdata := close_rawdata |}.
End WithPathTest.

Definition __enter__ (self : t) : M world pyobj := ret (_rawdata self).

(** [__exit__] returns [None] on both paths; [except_type] is the
    exception the body raised, if any. *)
Definition __exit__ (self : t) (except_type : option exn) : M world pyobj :=
  try_except
    ((if _close_rawdata self then py_close (_rawdata self) else ret tt);;;
     ret ONone)
    is_AttributeError
    (ret ONone).
End get_rawdata_context.

(** [with mgr as v: body(v)] for a manager whose [__exit__] returns
    [None]: an exception of the body propagates after [__exit__] ran,
    unless [__exit__] itself raises. *)
Definition with_context {A} (mgr : M world get_rawdata_context.t)
    (body : pyobj -> M world A) : M world A :=
  self <- mgr;;
  v <- get_rawdata_context.__enter__ self;;
  fun w =>
    match body v w with
    | (Ok a, w1) =>
        match get_rawdata_context.__exit__ self None w1 with
        | (Ok _, w2) => (Ok a, w2)
        | (Raise e', w2) => (Raise e', w2)
        end
    | (Raise e, w1) =>
        match get_rawdata_context.__exit__ self (Some e) w1 with
        | (Ok _, w2) => (Raise e, w2)
        | (Raise e', w2) => (Raise e', w2)
        end
    end.

(** *** Sample data *)

(** Modelled from the spec: [supyr_struct.util.is_path_empty] is not
    among the sources, and the specification only speaks of an empty
    or non-empty path.  This instance, used to run the resolver on
    examples, takes a path as empty when it is absent, the empty string,
    or ["."] (what [Path] makes of the empty string). *)
Definition sample_is_path_empty (p : option string) : bool :=
  match p with
  | None => true
  | Some s => String.eqb s "" || String.eqb s "."
  end.

Definition empty_world : world := {| heap := ∅; fs := ∅ |}.

(** One [bytearray(b"\x01\x02")] at location 1. *)
Definition world_with_bytearray : world :=
  {| heap := {[ 1%nat := HBytearray [x01; x02] ]}; fs := ∅ |}.

(** One file ["f"] of three bytes. *)
Definition world_with_file : world :=
  {| heap := ∅; fs := {[ "f"%string := [x01; x02; x03] ]} |}.

(** An object with [read] and [seek], and one without [seek]. *)
Definition world_with_objects : world :=
  {| heap := {[ 1%nat := HObject (mk_foreign true ["read"; "seek"]%string);
                2%nat := HObject (mk_foreign true ["read"]%string) ]};
     fs := ∅ |}.

(** *** The vocabulary of the specification *)

(** [SeekWhence] and the integer each mode is passed as. *)
Inductive SeekWhence := FromStart | FromCurrent | FromEnd.

Definition whence_code (wh : SeekWhence) : Z :=
  match wh with
  | FromStart => SEEK_SET
  | FromCurrent => SEEK_CUR
  | FromEnd => SEEK_END
  end.

(** The target of a seek: [pos], [cursor + pos] or [L + pos]. *)
Definition seek_target (wh : SeekWhence) (cursor L pos : Z) : Z :=
  match wh with
  | FromStart => pos
  | FromCurrent => cursor + pos
  | FromEnd => L + pos
  end.

(** [OutOfRangeSeek]: the immutable buffer reports a negative target
    with [AssertionError] and a target past the end with [IndexError]. *)
Definition OutOfRangeSeek (e : exn) : Prop :=
  e = AssertionError \/ e = IndexError.

(** The byte at a non-negative offset. *)
Definition byte_at (l : bytes) (i : Z) : option byte :=
  if i <? 0 then None else l !! Z.to_nat i.

(** The cursor of the immutable buffer lies inside its content. *)
Definition cursor_in_range (b : BytesBuffer.t) : Prop :=
  0 <= BytesBuffer._pos b <= len (BytesBuffer.data b).

(** The operations of the immutable buffer, and the state each leaves. *)
Inductive bytes_op :=
| OpRead (count : pyarg)
| OpSeek (pos whence : pyarg)
| OpPeek (count offset : pyarg)
| OpTell
| OpWrite (s : bytes).

Definition run_bytes_op (op : bytes_op) (b : BytesBuffer.t) : BytesBuffer.t :=
  match op with
  | OpRead count => snd (BytesBuffer.read count b)
  | OpSeek pos whence => snd (BytesBuffer.seek pos whence b)
  | OpPeek count offset => snd (BytesBuffer.peek count offset b)
  | OpTell => snd (BytesBuffer.tell b)
  | OpWrite s => snd (BytesBuffer.write s b)
  end.

(** A read with an integer count asks for a non-negative count. *)
Definition count_nonneg (op : bytes_op) : Prop :=
  match op with
  | OpRead (PyInt n) => 0 <= n
  | _ => True
  end.

(** [clamp c L]: the cursor [c] brought into [0, L]. *)
Definition clamp (c L : Z) : Z := Z.max 0 (Z.min c L).

(** The specification's reading of a read from an out-of-range cursor
    on the growable buffer: the bytes a read from the clamped cursor
    returns. *)
Definition read_clamped (count : Z) (b : BytearrayBuffer.t) : result bytes :=
  fst (BytearrayBuffer.read (PyInt count)
         (BytearrayBuffer.mk (BytearrayBuffer.data b)
            (clamp (BytearrayBuffer._pos b) (len (BytearrayBuffer.data b))))).

(** What the specification promises of [write(s)] on a growable buffer
    whose content was [old] and whose cursor was [c]: the gap between
    the old end and [c] holds zero bytes, the bytes at offsets
    [c .. c + len s - 1] are those of [s], the content reaches
    [c + len s], and the cursor is [c + len s]. *)
Definition write_post (old : bytes) (c : Z) (s : bytes)
    (b' : BytearrayBuffer.t) : Prop :=
  (forall i, len old <= i < c ->
     byte_at (BytearrayBuffer.data b') i = Some x00) /\
  (forall j, 0 <= j < len s ->
     byte_at (BytearrayBuffer.data b') (c + j) = byte_at s j) /\
  c + len s <= len (BytearrayBuffer.data b') /\
  BytearrayBuffer._pos b' = c + len s.

(** The bytes a byte-sequence object holds. *)
Definition content_of (w : world) (o : pyobj) : option bytes :=
  match as_bytearray w o with
  | Some d => Some d
  | None => as_bytes w o
  end.

(** The buffer at [buf] shares its content with [caller]: whatever is
    written through the buffer is what [caller] holds afterwards. *)
Definition shares_content (w : world) (buf : loc) (caller : pyobj) : Prop :=
  forall s : bytes,
    let w' := snd (call_BytearrayBuffer buf (BytearrayBuffer.write s) w) in
    content_of w' (ORef buf) = content_of w' caller.

(** The resource at [l] (a mapping or a file object) is open / closed. *)
Definition is_open (w : world) (l : loc) : bool :=
  match heap w !! l with
  | Some (HMmap m _) => negb (PeekableMmap.closed m)
  | Some (HFile f) => negb (f_closed f)
  | _ => false
  end.

Definition is_closed (w : world) (l : loc) : bool :=
  match heap w !! l with
  | Some (HMmap m _) => PeekableMmap.closed m
  | Some (HFile f) => f_closed f
  | _ => false
  end.

(** The resource at [l] can be closed: a file object, or a mapping
    with no exported buffer view. *)
Definition closable (w : world) (l : loc) : bool :=
  match heap w !! l with
  | Some (HMmap m _) => Nat.eqb (PeekableMmap.exports m) 0
  | Some (HFile _) => true
  | _ => false
  end.

(** The [offset] argument of [peek] as a Python value. *)
Definition offset_arg (offset : option Z) : pyarg :=
  match offset with
  | Some k => PyInt k
  | None => PyNone
  end.

(** An argument that is [None] or an integer. *)
Definition int_or_None (a : pyarg) : Prop :=
  match a with
  | PyStr _ => False
  | _ => True
  end.

(** The position [peek] reads from: the offset, or the cursor when no
    offset is given. *)
Definition peek_position (cursor : Z) (offset : option Z) : Z :=
  match offset with
  | Some k => k
  | None => cursor
  end.

(** * Properties *)

Example read_demo :
  BytesBuffer.read (PyInt 2) (BytesBuffer.mk [x01; x02; x03] 2)
  = (Ok [x03], BytesBuffer.mk [x01; x02; x03] 3).
Proof. reflexivity. Qed.

Example write_demo :
  BytearrayBuffer.write [x01; x02] (BytearrayBuffer.mk [x0a; x0b] 5)
  = (Ok tt, BytearrayBuffer.mk [x0a; x0b; x00; x00; x00; x01; x02] 7).
Proof. reflexivity. Qed.

Example mmap_peek_demo :
  PeekableMmap.peek (PyInt 2) (PyInt 1) (PeekableMmap.mk [x01; x02; x03] 3 false 0)
  = (Ok [x02; x03], PeekableMmap.mk [x01; x02; x03] 3 false 0).
Proof. reflexivity. Qed.

Example resolver_demo :
  fst (get_rawdata sample_is_path_empty None (ORef 1%nat) true world_with_bytearray)
  = Ok (ORef 2%nat).
Proof. vm_compute. reflexivity. Qed.

(** ** Slices *)

Section Slices.
Context {A : Type}.
Implicit Types l : list A.

Lemma len_nonneg l : 0 <= len l.
Proof. unfold len. lia. Qed.

Lemma adjust_index_in_range i n : 0 <= n -> 0 <= i <= n -> adjust_index i n = i.
Proof.
  intros Hn Hi. unfold adjust_index.
  destruct (Z.ltb_spec i 0); [lia|].
  destruct (Z.leb_spec n i); lia.
Qed.

Lemma adjust_index_past i n : 0 <= n -> n <= i -> adjust_index i n = n.
Proof.
  intros Hn Hi. unfold adjust_index.
  destruct (Z.ltb_spec i 0); [lia|].
  destruct (Z.leb_spec n i); lia.
Qed.

Lemma adjust_index_bounds i n : 0 <= n -> 0 <= adjust_index i n <= n.
Proof.
  intros Hn. unfold adjust_index.
  destruct (Z.ltb_spec i 0); [destruct (Z.ltb_spec (i + n) 0)|
                              destruct (Z.leb_spec n i)]; lia.
Qed.

(** [l[start:]] is [l[start:len(l)]]. *)
Lemma slice_from_slice l start : slice_from l start = slice l start (len l).
Proof.
  unfold slice_from, slice.
  pose proof (len_nonneg l) as Hn.
  pose proof (adjust_index_bounds start (len l) Hn) as Hs.
  rewrite (adjust_index_past (len l) (len l)) by lia.
  destruct (Z.ltb_spec (adjust_index start (len l)) (len l)).
  - rewrite take_ge; [done|]. rewrite length_drop. unfold len in *. lia.
  - rewrite drop_ge; [done|]. unfold len in *. lia.
Qed.

(** Inside the content a slice is the plain sub-list. *)
Lemma slice_in_range l a b :
  0 <= a <= len l -> a <= b <= len l ->
  slice l a b = take (Z.to_nat (b - a)) (drop (Z.to_nat a) l).
Proof.
  intros Ha Hb. unfold slice.
  rewrite !adjust_index_in_range by lia.
  destruct (Z.ltb_spec a b); [done|].
  replace (Z.to_nat (b - a)) with 0%nat by lia. done.
Qed.

Lemma slice_tail l a :
  0 <= a <= len l -> slice l a (len l) = drop (Z.to_nat a) l.
Proof.
  intros Ha. rewrite slice_in_range by lia.
  rewrite take_ge; [done|]. rewrite length_drop. unfold len in *. lia.
Qed.

Lemma len_slice_in_range l a b :
  0 <= a <= len l -> a <= b <= len l -> len (slice l a b) = b - a.
Proof.
  intros Ha Hb. rewrite slice_in_range by lia.
  unfold len in *. rewrite length_take, length_drop. lia.
Qed.

(** A slice that starts at or past the end is empty. *)
Lemma slice_start_past l a b : len l <= a -> slice l a b = [].
Proof.
  intros Ha. unfold slice. pose proof (len_nonneg l) as Hn.
  rewrite (adjust_index_past a) by lia.
  pose proof (adjust_index_bounds b (len l) Hn).
  destruct (Z.ltb_spec (len l) (adjust_index b (len l))); [lia|done].
Qed.
End Slices.

(** ** peek and the cursor *)

Ltac unfold_monad :=
  unfold bind, get, put, lift, ret, raise, try_except, py_assert in *.

(** The [bytes] backend: [peek] returns the state it was given. *)
Lemma BytesBuffer_peek_state count offset b :
  snd (BytesBuffer.peek count offset b) = b.
Proof.
  unfold BytesBuffer.peek. unfold_monad.
  destruct offset as [|o|o], count as [|c|c]; simpl;
    repeat (match goal with
            | |- context [if ?c then _ else _] => destruct c
            end; simpl); reflexivity.
Qed.

(** The [bytearray] backend: [peek] returns the state it was given. *)
Lemma BytearrayBuffer_peek_state count offset b :
  snd (BytearrayBuffer.peek count offset b) = b.
Proof.
  unfold BytearrayBuffer.peek. unfold_monad.
  destruct offset as [|o|o], count as [|c|c]; simpl;
    repeat (match goal with
            | |- context [if ?c then _ else _] => destruct c
            end; simpl); reflexivity.
Qed.

Lemma fits_ssize_t_inside p n :
  0 <= p <= n -> n <= PY_SSIZE_T_MAX -> fits_ssize_t p = true.
Proof.
  unfold fits_ssize_t. intros Hp Hn. pose proof (Z.pow_pos_nonneg 2 63).
  apply andb_true_iff. split; apply Z.leb_le; unfold PY_SSIZE_T_MAX in *; lia.
Qed.

(** [mmap.seek] back to a position inside the mapping succeeds. *)
Lemma mmap_seek_back (m : PeekableMmap.t) p :
  PeekableMmap.closed m = false -> 0 <= p <= len (PeekableMmap.data m) ->
  len (PeekableMmap.data m) <= PY_SSIZE_T_MAX ->
  PeekableMmap.seek (PyInt p) SEEK_SET m
  = (Ok tt, PeekableMmap.mk (PeekableMmap.data m) p false (PeekableMmap.exports m)).
Proof.
  intros Hc Hp Hmax. unfold PeekableMmap.seek, PeekableMmap.check_valid.
  unfold_monad. rewrite Hc.
  rewrite (fits_ssize_t_inside p _ Hp Hmax).
  change (fits_int SEEK_SET) with true. cbn [negb andb].
  change (0 <=? SEEK_SET) with true. change (SEEK_SET <=? 2) with true.
  change (SEEK_SET =? SEEK_SET) with true. cbn [andb].
  destruct (Z.ltb_spec (len (PeekableMmap.data m)) p); [lia|].
  destruct (Z.ltb_spec p 0); [lia|]. cbn [orb].
  unfold PeekableMmap.set_pos. by rewrite Hc.
Qed.

(** [seek] and [read] on an open mapping touch nothing but the cursor. *)
Lemma mmap_seek_shape d q ex dist whence :
  exists r q',
    PeekableMmap.seek dist whence (PeekableMmap.mk d q false ex)
    = (r, PeekableMmap.mk d q' false ex).
Proof.
  unfold PeekableMmap.seek, PeekableMmap.check_valid, PeekableMmap.set_pos.
  unfold_monad. cbn [PeekableMmap.closed PeekableMmap.data PeekableMmap.pos
                       PeekableMmap.exports].
  destruct dist as [|z|s]; try (do 2 eexists; reflexivity).
  destruct (fits_ssize_t z); cbn [negb]; [|do 2 eexists; reflexivity].
  destruct (fits_int whence); cbn [negb]; [|do 2 eexists; reflexivity].
  destruct ((0 <=? whence) && (whence <=? 2)); [|do 2 eexists; reflexivity].
  match goal with |- context [if ?c then _ else _] => destruct c end;
    do 2 eexists; reflexivity.
Qed.

Lemma mmap_read_shape d q ex count :
  exists r q',
    PeekableMmap.read count (PeekableMmap.mk d q false ex)
    = (r, PeekableMmap.mk d q' false ex).
Proof.
  unfold PeekableMmap.read, PeekableMmap.check_valid, PeekableMmap.set_pos.
  unfold_monad. cbn [PeekableMmap.closed PeekableMmap.data PeekableMmap.pos
                       PeekableMmap.exports].
  destruct count as [|z|s]; try (do 2 eexists; reflexivity).
  destruct (fits_ssize_t z); do 2 eexists; reflexivity.
Qed.

(** The mapped backend, from a cursor inside the mapping: whatever
    [seek(offset)] and [read(count)] did, the mapping is back in the
    state it was in. *)
Lemma PeekableMmap_peek_state count offset m :
  PeekableMmap.wf m -> snd (PeekableMmap.peek count offset m) = m.
Proof.
  intros [Hwf Hmax].
  destruct m as [d p cl ex]; simpl in Hwf, Hmax.
  destruct cl; [reflexivity|].
  assert (Hback : forall q,
    PeekableMmap.seek (PyInt p) SEEK_SET (PeekableMmap.mk d q false ex)
    = (Ok tt, PeekableMmap.mk d p false ex)).
  { intros q. by rewrite mmap_seek_back. }
  unfold PeekableMmap.peek, PeekableMmap.tell, PeekableMmap.check_valid,
    PeekableMmap.try_finally_reraise.
  unfold_monad.
  cbn [PeekableMmap.closed PeekableMmap.pos].
  destruct (is_None offset).
  - destruct (mmap_read_shape d p ex count) as (r & q' & ->).
    destruct r; by rewrite Hback.
  - destruct (mmap_seek_shape d p ex offset SEEK_SET) as (r & q' & ->).
    destruct r as [[]|e]; [|by rewrite Hback].
    destruct (mmap_read_shape d q' ex count) as (r & q'' & ->).
    destruct r; by rewrite Hback.
Qed.

(** X21. On every backend [peek(count, offset)] leaves the buffer in the
    state it had before the call, so [tell()] answers as before,
    whether [peek] returned bytes or raised: always on the two
    in-memory buffers, and on the mapped one whenever the cursor lies
    inside the mapping before the call. *)
Theorem peek_preserves_cursor :
  (forall count offset (b : BytesBuffer.t),
      BytesBuffer.tell (snd (BytesBuffer.peek count offset b))
      = BytesBuffer.tell b) /\
  (forall count offset (b : BytearrayBuffer.t),
      BytearrayBuffer.tell (snd (BytearrayBuffer.peek count offset b))
      = BytearrayBuffer.tell b) /\
  (forall count offset (m : PeekableMmap.t),
      PeekableMmap.wf m ->
      PeekableMmap.tell (snd (PeekableMmap.peek count offset m))
      = PeekableMmap.tell m).
Proof.
  split; [|split]; intros.
  - by rewrite BytesBuffer_peek_state.
  - by rewrite BytearrayBuffer_peek_state.
  - by rewrite PeekableMmap_peek_state.
Qed.

(** A run on each backend where [peek] raises: a [str] count on the
    in-memory buffers, an offset outside the mapping on the mapped
    one. *)
Lemma peek_preserves_cursor_witness :
  let b := BytesBuffer.mk [x01; x02; x03] 1 in
  let a := BytearrayBuffer.mk [x01; x02; x03] 1 in
  let m := PeekableMmap.mk [x01; x02; x03] 1 false 0 in
  (fst (BytesBuffer.peek (PyStr "n") PyNone b) = Raise AssertionError /\
   BytesBuffer.tell (snd (BytesBuffer.peek (PyStr "n") PyNone b))
   = BytesBuffer.tell b) /\
  (fst (BytearrayBuffer.peek (PyStr "n") PyNone a) = Raise AssertionError /\
   BytearrayBuffer.tell (snd (BytearrayBuffer.peek (PyStr "n") PyNone a))
   = BytearrayBuffer.tell a) /\
  (PeekableMmap.wf m /\
   fst (PeekableMmap.peek (PyInt 2) (PyInt 9) m) = Raise ValueError /\
   PeekableMmap.tell (snd (PeekableMmap.peek (PyInt 2) (PyInt 9) m))
   = PeekableMmap.tell m).
Proof.
  intros b a m.
  destruct peek_preserves_cursor as [H1 [H2 H3]].
  assert (Hwf : PeekableMmap.wf m).
  { unfold PeekableMmap.wf, len, PY_SSIZE_T_MAX; simpl; lia. }
  split; [|split].
  - split; [reflexivity | apply H1].
  - split; [reflexivity | apply H2].
  - split; [exact Hwf | split; [reflexivity | apply (H3 _ _ _ Hwf)]].
Defined.

(** A new mapping has its cursor inside, and the cursor operations
    keep it there. *)
Lemma PeekableMmap_wf_kept (m : PeekableMmap.t) :
  PeekableMmap.wf m ->
  (forall dist whence, PeekableMmap.wf (snd (PeekableMmap.seek dist whence m))) /\
  (forall count, PeekableMmap.wf (snd (PeekableMmap.read count m))) /\
  (forall count offset, PeekableMmap.wf (snd (PeekableMmap.peek count offset m))) /\
  PeekableMmap.wf (snd (PeekableMmap.tell m)) /\
  PeekableMmap.wf (snd (PeekableMmap.close m)).
Proof.
  intros Hwf. pose proof Hwf as [Hp Hmax].
  destruct m as [d p cl ex]. simpl in Hp, Hmax.
  split; [|split; [|split; [|split]]].
  - intros dist whence.
    unfold PeekableMmap.seek, PeekableMmap.check_valid, PeekableMmap.set_pos.
    unfold_monad. simpl. destruct cl; [exact Hwf|].
    destruct dist as [|z|s]; try exact Hwf.
    destruct (fits_ssize_t z); simpl; [|exact Hwf].
    destruct (fits_int whence); simpl; [|exact Hwf].
    destruct ((0 <=? whence) && (whence <=? 2)); [|exact Hwf].
    match goal with |- context [(?a <? ?w) || (?w <? 0)] =>
      destruct (Z.ltb_spec a w), (Z.ltb_spec w 0) end; simpl;
      try exact Hwf; split; simpl; lia.
  - intros count.
    unfold PeekableMmap.read, PeekableMmap.check_valid, PeekableMmap.set_pos.
    unfold_monad. simpl. destruct cl; [exact Hwf|].
    assert (Hnum : forall k,
      PeekableMmap.wf
        (PeekableMmap.mk d
           (p + (if (k <? 0) || ((if p <? len d then len d - p else 0) <? k)
                 then (if p <? len d then len d - p else 0) else k))
           false ex)).
    { intros k. split; simpl; [|exact Hmax].
      destruct (Z.ltb_spec p (len d)), (Z.ltb_spec k 0); simpl; try lia;
        match goal with |- context [?a <? k] =>
          destruct (Z.ltb_spec a k) end; lia. }
    destruct count as [|z|s]; try exact Hwf.
    + exact (Hnum PY_SSIZE_T_MAX).
    + cbn [bind]. destruct (fits_ssize_t z); [exact (Hnum z)|exact Hwf].
  - intros count offset. by rewrite PeekableMmap_peek_state.
  - unfold PeekableMmap.tell, PeekableMmap.check_valid. unfold_monad. simpl.
    by destruct cl.
  - unfold PeekableMmap.close. simpl. by destruct (0 <? ex)%nat.
Qed.

Lemma PeekableMmap_wf_new (content : bytes) :
  len content <= PY_SSIZE_T_MAX ->
  PeekableMmap.wf (PeekableMmap.mk content 0 false 0).
Proof.
  intros Hmax. split; simpl; [|exact Hmax]. pose proof (len_nonneg content). lia.
Qed.

(** [resize], and so [clear_cache] once the file has shrunk, can
    leave the cursor past the end: on five bytes, after [seek(5)],
    either call with a size of 3 gives a mapping of three bytes whose
    cursor is still 5. *)
Lemma PeekableMmap_resize_below_cursor :
  let m0 := PeekableMmap.mk [x01; x02; x03; x04; x05] 0 false 0 in
  let m1 := snd (PeekableMmap.seek (PyInt 5) SEEK_SET m0) in
  PeekableMmap.wf m0 /\ PeekableMmap.wf m1 /\
  PeekableMmap.resize true (PyInt 3) m1
  = (Ok tt, PeekableMmap.mk [x01; x02; x03] 5 false 0) /\
  PeekableMmap.clear_cache true 3 m1
  = (Ok tt, PeekableMmap.mk [x01; x02; x03] 5 false 0) /\
  ~ PeekableMmap.wf (PeekableMmap.mk [x01; x02; x03] 5 false 0).
Proof.
  intros m0 m1.
  split; [unfold PeekableMmap.wf, len, PY_SSIZE_T_MAX; simpl; lia|].
  split; [unfold PeekableMmap.wf, len, PY_SSIZE_T_MAX; simpl; lia|].
  split; [reflexivity|]. split; [reflexivity|].
  intros [Hp _]. unfold len in Hp. simpl in Hp. lia.
Qed.

(** C1. [PeekableMmap.peek] is written to leave the cursor where it
    was, but it restores it with [seek(orig_pos)], which [mmap]
    refuses once the cursor lies past the end of the mapping (as after
    a [resize] or [clear_cache] that shrank it).  On three bytes with
    the cursor at 5, [peek(1, 0)] reads one byte, raises [ValueError]
    from the restoring seek, and leaves the cursor at 1: [tell()]
    answered 5 before the call and answers 1 after it. *)
Theorem PeekableMmap_peek_cursor_past_end :
  let m := PeekableMmap.mk [x01; x02; x03] 5 false 0 in
  fst (PeekableMmap.tell m) = Ok 5 /\
  PeekableMmap.peek (PyInt 1) (PyInt 0) m
  = (Raise ValueError, PeekableMmap.mk [x01; x02; x03] 1 false 0) /\
  fst (PeekableMmap.tell (snd (PeekableMmap.peek (PyInt 1) (PyInt 0) m))) = Ok 1.
Proof. intros m. split; [|split]; reflexivity. Qed.

(** ** The immutable buffer: seek *)

Lemma BytesBuffer_seek_to_int p (b : BytesBuffer.t) :
  BytesBuffer.seek_to (PyInt p) b
  = if p <? 0 then (Raise AssertionError, b)
    else if len (BytesBuffer.data b) <? p then (Raise IndexError, b)
    else (Ok tt, BytesBuffer.mk (BytesBuffer.data b) p).
Proof.
  unfold BytesBuffer.seek_to. unfold_monad. simpl.
  destruct (Z.leb_spec 0 p), (Z.ltb_spec p 0); try lia; simpl; [|done].
  destruct (Z.ltb_spec p (len (BytesBuffer.data b) + 1)),
    (Z.ltb_spec (len (BytesBuffer.data b)) p); try lia; done.
Qed.

Lemma BytesBuffer_seek_target wh pos (b : BytesBuffer.t) :
  BytesBuffer.seek (PyInt pos) (PyInt (whence_code wh)) b
  = BytesBuffer.seek_to
      (PyInt (seek_target wh (BytesBuffer._pos b) (len (BytesBuffer.data b)) pos)) b.
Proof.
  unfold BytesBuffer.seek. unfold_monad.
  destruct wh; simpl; try reflexivity.
  by rewrite Z.add_comm.
Qed.

(** C2. On an immutable buffer of length [L], [seek(pos, whence)] aims at
    [pos], [cursor + pos] or [L + pos]; a target below 0 or above [L]
    fails with an out-of-range error and the buffer state, cursor
    included, is untouched; any other target becomes the cursor.  On
    five bytes, [seek(-2, FromEnd)] moves to 3 and [seek(-10, FromEnd)]
    fails. *)
Theorem BytesBuffer_seek_spec :
  (forall (b : BytesBuffer.t) pos wh,
     let L := len (BytesBuffer.data b) in
     let target := seek_target wh (BytesBuffer._pos b) L pos in
     (target < 0 \/ L < target ->
      exists e, OutOfRangeSeek e /\
        BytesBuffer.seek (PyInt pos) (PyInt (whence_code wh)) b = (Raise e, b)) /\
     (0 <= target <= L ->
      BytesBuffer.seek (PyInt pos) (PyInt (whence_code wh)) b
      = (Ok tt, BytesBuffer.mk (BytesBuffer.data b) target))) /\
  (forall C cursor, len C = 5 ->
     BytesBuffer.seek (PyInt (-2)) (PyInt (whence_code FromEnd)) (BytesBuffer.mk C cursor)
     = (Ok tt, BytesBuffer.mk C 3) /\
     exists e, OutOfRangeSeek e /\
       BytesBuffer.seek (PyInt (-10)) (PyInt (whence_code FromEnd)) (BytesBuffer.mk C cursor)
       = (Raise e, BytesBuffer.mk C cursor)).
Proof.
  assert (Hgen : forall (b : BytesBuffer.t) pos wh,
     let L := len (BytesBuffer.data b) in
     let target := seek_target wh (BytesBuffer._pos b) L pos in
     (target < 0 \/ L < target ->
      exists e, OutOfRangeSeek e /\
        BytesBuffer.seek (PyInt pos) (PyInt (whence_code wh)) b = (Raise e, b)) /\
     (0 <= target <= L ->
      BytesBuffer.seek (PyInt pos) (PyInt (whence_code wh)) b
      = (Ok tt, BytesBuffer.mk (BytesBuffer.data b) target))).
  { intros b pos wh L target.
    rewrite BytesBuffer_seek_target, BytesBuffer_seek_to_int.
    fold L target. pose proof (len_nonneg (BytesBuffer.data b)).
    split; intros Ht.
    - destruct (Z.ltb_spec target 0).
      + exists AssertionError. split; [by left|done].
      + destruct (Z.ltb_spec L target); [|lia].
        exists IndexError. split; [by right|done].
    - destruct (Z.ltb_spec target 0); [lia|].
      destruct (Z.ltb_spec L target); [lia|done]. }
  split; [exact Hgen|].
  intros C cursor HL. split.
  - destruct (Hgen (BytesBuffer.mk C cursor) (-2) FromEnd) as [_ H].
    simpl in H. rewrite HL in H. apply H. lia.
  - destruct (Hgen (BytesBuffer.mk C cursor) (-10) FromEnd) as [H _].
    simpl in H. rewrite HL in H. apply H. lia.
Qed.

Lemma BytesBuffer_seek_spec_witness :
  let b := BytesBuffer.mk [x01; x02; x03; x04; x05] 1 in
  BytesBuffer.seek (PyInt 3) (PyInt (whence_code FromCurrent)) b
  = (Ok tt, BytesBuffer.mk [x01; x02; x03; x04; x05] 4) /\
  (exists e, OutOfRangeSeek e /\
     BytesBuffer.seek (PyInt 6) (PyInt (whence_code FromStart)) b = (Raise e, b)) /\
  BytesBuffer.seek (PyInt (-2)) (PyInt (whence_code FromEnd)) b
  = (Ok tt, BytesBuffer.mk [x01; x02; x03; x04; x05] 3).
Proof.
  intros b. destruct BytesBuffer_seek_spec as [Hgen Hfive].
  split; [|split].
  - destruct (Hgen b 3 FromCurrent) as [_ H]. apply H.
    unfold len; simpl; lia.
  - destruct (Hgen b 6 FromStart) as [H _]. apply H.
    unfold len; simpl; lia.
  - apply (Hfive _ 1). reflexivity.
Defined.

(** ** The immutable buffer: read *)

Lemma BytesBuffer_read_int C pos n :
  BytesBuffer.read (PyInt n) (BytesBuffer.mk C pos)
  = (Ok (slice C pos (Z.min (pos + n) (len C))),
     BytesBuffer.mk C (Z.min (pos + n) (len C))).
Proof.
  unfold BytesBuffer.read. unfold_monad. simpl.
  destruct (Z.ltb_spec (pos + n) (len C)); simpl.
  - by rewrite Z.min_l by lia.
  - by rewrite Z.min_r by lia.
Qed.

Lemma BytesBuffer_read_None C pos :
  BytesBuffer.read PyNone (BytesBuffer.mk C pos)
  = (Ok (slice C pos (len C)), BytesBuffer.mk C (len C)).
Proof.
  unfold BytesBuffer.read. unfold_monad. simpl.
  by rewrite slice_from_slice.
Qed.

(** C4. On an immutable buffer over [C] of length [L] with cursor [pos],
    [read(n)] returns the slice [C[pos : min(pos+n, L)]] and the cursor
    becomes [min(pos+n, L)]; with the cursor inside the content and
    [n >= 0] that slice is the at most [n] bytes after [pos], a read
    past the end returns the whole tail without error, and the cursor
    advances by the number of bytes returned; [read()] returns
    [C[pos:L]] and moves the cursor to [L]. *)
Theorem BytesBuffer_read_spec :
  forall (C : bytes) (pos : Z),
    let L := len C in
    (forall n,
        BytesBuffer.read (PyInt n) (BytesBuffer.mk C pos)
        = (Ok (slice C pos (Z.min (pos + n) L)),
           BytesBuffer.mk C (Z.min (pos + n) L)) /\
        BytesBuffer.tell (snd (BytesBuffer.read (PyInt n) (BytesBuffer.mk C pos)))
        = (Ok (Z.min (pos + n) L), BytesBuffer.mk C (Z.min (pos + n) L))) /\
    (forall n, 0 <= pos <= L -> 0 <= n ->
        slice C pos (Z.min (pos + n) L)
        = take (Z.to_nat (Z.min n (L - pos))) (drop (Z.to_nat pos) C) /\
        Z.min (pos + n) L = pos + len (slice C pos (Z.min (pos + n) L))) /\
    (forall n, 0 <= pos <= L -> L <= pos + n ->
        fst (BytesBuffer.read (PyInt n) (BytesBuffer.mk C pos))
        = Ok (drop (Z.to_nat pos) C)) /\
    BytesBuffer.read PyNone (BytesBuffer.mk C pos)
    = (Ok (slice C pos L), BytesBuffer.mk C L) /\
    (0 <= pos <= L -> slice C pos L = drop (Z.to_nat pos) C).
Proof.
  intros C pos L. repeat split.
  - apply BytesBuffer_read_int.
  - by rewrite BytesBuffer_read_int.
  - rewrite slice_in_range by (fold L; lia).
    f_equal. f_equal. lia.
  - rewrite len_slice_in_range by (fold L; lia). lia.
  - intros n Hp Hn. rewrite BytesBuffer_read_int. simpl. fold L.
    rewrite Z.min_r by lia. f_equal. by apply slice_tail.
  - apply BytesBuffer_read_None.
  - intros Hp. by apply slice_tail.
Qed.

Lemma BytesBuffer_read_spec_witness :
  let C := [x01; x02; x03; x04; x05] in
  slice C 1 (Z.min (1 + 2) (len C)) = [x02; x03] /\
  fst (BytesBuffer.read (PyInt 9) (BytesBuffer.mk C 3)) = Ok [x04; x05] /\
  slice C 3 (len C) = [x04; x05].
Proof.
  intros C.
  split; [|split].
  - destruct (BytesBuffer_read_spec C 1) as (_ & H & _).
    destruct (H 2) as [-> _]; [unfold len; simpl; lia | lia | reflexivity].
  - destruct (BytesBuffer_read_spec C 3) as (_ & _ & H & _).
    rewrite (H 9); [reflexivity | unfold len; simpl; lia | unfold len; simpl; lia].
  - destruct (BytesBuffer_read_spec C 3) as (_ & _ & _ & _ & H).
    rewrite H; [reflexivity | unfold len; simpl; lia].
Defined.

(** ** The immutable buffer: the cursor range *)

(** Reads with a non-negative count, seeks, peeks, [tell] and write
    attempts keep the cursor of the immutable buffer inside [0, L]. *)
Lemma BytesBuffer_cursor_in_range_preserved op (b : BytesBuffer.t) :
  count_nonneg op -> cursor_in_range b -> cursor_in_range (run_bytes_op op b).
Proof.
  intros Hop Hb. unfold cursor_in_range in *. destruct b as [C pos].
  simpl in Hb. pose proof (len_nonneg C) as HL.
  destruct op as [count|p whence|count offset| |s]; simpl.
  - destruct count as [|n|s]; simpl in Hop.
    + rewrite BytesBuffer_read_None. simpl. lia.
    + rewrite BytesBuffer_read_int. simpl. lia.
    + simpl. lia.
  - destruct whence as [|w|w]; try (simpl; lia).
    assert (Hto : forall q, let b' := snd (BytesBuffer.seek_to q (BytesBuffer.mk C pos)) in
                            0 <= BytesBuffer._pos b' <= len (BytesBuffer.data b')).
    { intros [|q|q]; try (simpl; lia).
      intros b'. subst b'. rewrite BytesBuffer_seek_to_int. simpl.
      destruct (Z.ltb_spec q 0); [simpl; lia|].
      destruct (Z.ltb_spec (len C) q); simpl; lia. }
    unfold BytesBuffer.seek. unfold_monad. simpl.
    destruct (w =? SEEK_SET); [apply Hto|].
    destruct (w =? SEEK_CUR).
    { destruct p as [|q|q]; simpl; try lia. apply Hto. }
    destruct (w =? SEEK_END); [|simpl; lia].
    destruct p as [|q|q]; simpl; try lia. apply Hto.
  - rewrite BytesBuffer_peek_state. simpl. lia.
  - lia.
  - lia.
Qed.

(** C5. The cursor of an immutable buffer is meant to stay inside
    [0, L], and [seek] enforces it; [read] with a negative count does
    not: on five bytes with the cursor at 2, [read(-5)] returns no byte
    and leaves the cursor at -3. *)
Theorem BytesBuffer_read_negative_count_leaves_range :
  let b := BytesBuffer.mk [x61; x62; x63; x64; x65] 2 in
  cursor_in_range b /\
  BytesBuffer.read (PyInt (-5)) b
  = (Ok [], BytesBuffer.mk [x61; x62; x63; x64; x65] (-3)) /\
  ~ cursor_in_range (run_bytes_op (OpRead (PyInt (-5))) b).
Proof.
  intros b. split; [|split].
  - unfold cursor_in_range, len; simpl; lia.
  - reflexivity.
  - unfold cursor_in_range. simpl. lia.
Qed.

(** ** The growable buffer: seek and read *)

(** C6. On a growable buffer [seek(pos, whence)] with one of the three
    modes never fails and makes the arithmetic result ([pos],
    [cursor + pos], [length + pos]) the cursor, whatever its sign or
    size. *)
Theorem BytearrayBuffer_seek_unchecked :
  forall (b : BytearrayBuffer.t) (pos : Z) (wh : SeekWhence),
    BytearrayBuffer.seek pos (PyInt (whence_code wh)) b
    = (Ok tt,
       BytearrayBuffer.mk (BytearrayBuffer.data b)
         (seek_target wh (BytearrayBuffer._pos b)
            (len (BytearrayBuffer.data b)) pos)).
Proof.
  intros b pos wh. unfold BytearrayBuffer.seek. unfold_monad.
  destruct wh; simpl; try reflexivity.
  unfold BytearrayBuffer.set_pos. by rewrite Z.add_comm.
Qed.

Example BytearrayBuffer_seek_negative_and_past_end :
  let b := BytearrayBuffer.new [x01; x02] in
  BytearrayBuffer._pos (snd (BytearrayBuffer.seek (-3) (PyInt SEEK_SET) b)) = -3 /\
  BytearrayBuffer._pos (snd (BytearrayBuffer.seek 7 (PyInt SEEK_END) b)) = 9.
Proof. split; reflexivity. Qed.

Lemma BytearrayBuffer_read_int C pos n :
  BytearrayBuffer.read (PyInt n) (BytearrayBuffer.mk C pos)
  = (Ok (slice C pos (Z.min (pos + n) (len C))),
     BytearrayBuffer.mk C (Z.min (pos + n) (len C))).
Proof.
  unfold BytearrayBuffer.read. unfold_monad. simpl.
  destruct (Z.ltb_spec (pos + n) (len C)); simpl.
  - by rewrite Z.min_l by lia.
  - by rewrite Z.min_r by lia.
Qed.

(** C7, as the specification words it, fails: a negative cursor is not
    clamped to 0 but counted from the end of the content.  After
    [seek(-3)] on five bytes, [read(2)] returns the bytes at offsets 2
    and 3, where a read from the clamped cursor returns those at 0
    and 1. *)
Lemma BytearrayBuffer_read_negative_cursor_not_clamped :
  let b := snd (BytearrayBuffer.seek (-3) (PyInt SEEK_SET)
                  (BytearrayBuffer.new [x61; x62; x63; x64; x65])) in
  BytearrayBuffer._pos b = -3 /\
  fst (BytearrayBuffer.read (PyInt 2) b) = Ok [x63; x64] /\
  read_clamped 2 b = Ok [x61; x62] /\
  fst (BytearrayBuffer.read (PyInt 2) b) <> read_clamped 2 b.
Proof.
  intros b. repeat split; try reflexivity.
  vm_compute. discriminate.
Qed.

(** C7, amended. On a growable buffer [read(count)] with an integer
    count never fails, whatever the cursor.  For a cursor that is not
    negative the bytes are those of a read from the cursor clamped to
    [0, length]: a cursor at or past the end yields no bytes, and a
    non-negative count yields at most [count] bytes. *)
Theorem BytearrayBuffer_read_total :
  forall (b : BytearrayBuffer.t) (n : Z),
    (exists r, fst (BytearrayBuffer.read (PyInt n) b) = Ok r) /\
    (0 <= BytearrayBuffer._pos b ->
       fst (BytearrayBuffer.read (PyInt n) b) = read_clamped n b) /\
    (len (BytearrayBuffer.data b) <= BytearrayBuffer._pos b ->
       fst (BytearrayBuffer.read (PyInt n) b) = Ok []) /\
    (0 <= BytearrayBuffer._pos b -> 0 <= n ->
       exists r, fst (BytearrayBuffer.read (PyInt n) b) = Ok r /\ len r <= n).
Proof.
  intros [C pos] n. simpl. pose proof (len_nonneg C) as HL.
  rewrite BytearrayBuffer_read_int. simpl.
  split; [eauto|]. split; [|split].
  - intros Hp. unfold read_clamped. simpl.
    rewrite BytearrayBuffer_read_int. simpl. unfold clamp.
    destruct (Z.le_gt_cases pos (len C)).
    + by replace (Z.max 0 (Z.min pos (len C))) with pos by lia.
    + rewrite !slice_start_past by lia. done.
  - intros Hp. by rewrite slice_start_past.
  - intros Hp Hn. eexists. split; [reflexivity|].
    destruct (Z.le_gt_cases pos (len C)).
    + rewrite len_slice_in_range by lia. lia.
    + rewrite slice_start_past by lia. unfold len. simpl. lia.
Qed.

Lemma BytearrayBuffer_read_total_witness :
  let b := BytearrayBuffer.mk [x61; x62; x63] 7 in
  fst (BytearrayBuffer.read (PyInt 2) b) = read_clamped 2 b /\
  fst (BytearrayBuffer.read (PyInt 2) b) = Ok [] /\
  (exists r, fst (BytearrayBuffer.read (PyInt 2) b) = Ok r /\ len r <= 2).
Proof.
  intros b. destruct (BytearrayBuffer_read_total b 2) as (_ & H1 & H2 & H3).
  split; [|split].
  - apply H1. simpl. lia.
  - apply H2. unfold len. simpl. lia.
  - apply H3; simpl; lia.
Defined.

(** ** Construction *)

(** C10. A freshly constructed buffer of either in-memory kind has its
    cursor at 0: [tell()] returns 0 before any other call. *)
Theorem new_buffer_cursor_zero :
  forall rawdata : bytes,
    BytesBuffer.tell (BytesBuffer.new rawdata)
    = (Ok 0, BytesBuffer.new rawdata) /\
    BytearrayBuffer.tell (BytearrayBuffer.new rawdata)
    = (Ok 0, BytearrayBuffer.new rawdata).
Proof. intros rawdata. split; reflexivity. Qed.

(** ** The growable buffer: write *)

Lemma len_app {A} (l k : list A) : len (l ++ k) = len l + len k.
Proof. unfold len. rewrite length_app. lia. Qed.

Lemma len_replicate {A} (x : A) k : 0 <= k -> len (replicate (Z.to_nat k) x) = k.
Proof. intros Hk. unfold len. rewrite length_replicate. lia. Qed.

(** A write that ends past the old end, from a cursor that is not
    negative: the content is extended with zeros up to the end of the
    write, then the last [len s] bytes are replaced by [s]. *)
Lemma BytearrayBuffer_write_extend d c s :
  0 <= c -> len d < c + len s ->
  BytearrayBuffer.write s (BytearrayBuffer.mk d c)
  = (Ok tt,
     BytearrayBuffer.mk
       (take (Z.to_nat c) (d ++ replicate (Z.to_nat (len s - len d + c)) x00) ++ s)
       (c + len s)).
Proof.
  intros Hc Hlt. unfold BytearrayBuffer.write. unfold_monad. simpl.
  destruct (Z.ltb_spec (len d) (len s + c)); [|lia]. simpl.
  set (d' := d ++ replicate (Z.to_nat (len s - len d + c)) x00).
  assert (Hd' : len d' = c + len s).
  { unfold d'. rewrite len_app, len_replicate by lia. lia. }
  pose proof (len_nonneg s) as Hs. pose proof (len_nonneg d) as Hd.
  unfold setslice. rewrite Hd'.
  assert (Ha : adjust_index c (c + len s) = c).
  { unfold adjust_index. destruct (Z.ltb_spec c 0); [lia|].
    destruct (Z.leb_spec (c + len s) c); lia. }
  rewrite Ha, (adjust_index_past (c + len s)) by lia.
  destruct (Z.ltb_spec (c + len s) c); [lia|].
  rewrite (drop_ge d') by (unfold len in *; lia).
  by rewrite app_nil_r.
Qed.

(** C3, as the specification words it, fails for a negative cursor,
    which the unchecked [seek] allows: after [seek(-1)] on two bytes,
    writing four bytes inserts them at offset 2 and the content grows
    to six bytes; the bytes at offsets [c .. c + 3] are not the data. *)
Lemma BytearrayBuffer_write_negative_cursor :
  let b := snd (BytearrayBuffer.seek (-1) (PyInt SEEK_SET)
                  (BytearrayBuffer.new [x78; x79])) in
  let s := [x41; x42; x43; x44] in
  len (BytearrayBuffer.data b) < BytearrayBuffer._pos b + len s /\
  BytearrayBuffer.write s b
  = (Ok tt, BytearrayBuffer.mk [x78; x79; x41; x42; x43; x44] 3) /\
  ~ write_post (BytearrayBuffer.data b) (BytearrayBuffer._pos b) s
      (snd (BytearrayBuffer.write s b)).
Proof.
  intros b s. split; [|split].
  - unfold len; simpl; lia.
  - reflexivity.
  - intros (_ & Hdata & _). specialize (Hdata 1).
    assert (Hj : 0 <= 1 < len s) by (unfold len; simpl; lia).
    specialize (Hdata Hj). vm_compute in Hdata. discriminate.
Qed.

(** C3, amended. On a growable buffer of length [old_length] whose
    cursor [c] is not negative, [write(data)] with
    [c + len(data) > old_length] succeeds, fills every offset in
    [old_length, c) with a zero byte, puts [data] at offsets
    [c, c + len(data)), keeps the bytes before both [c] and the old end,
    makes the length exactly [c + len(data)] and advances the cursor by
    [len(data)].  Writing two bytes at cursor 5 into two bytes gives
    seven bytes: the old two, three zeros, the data; the cursor is 7. *)
Theorem BytearrayBuffer_write_grows :
  (forall (d s : bytes) (c : Z),
     0 <= c -> len d < c + len s ->
     exists b',
       BytearrayBuffer.write s (BytearrayBuffer.mk d c) = (Ok tt, b') /\
       write_post d c s b' /\
       len (BytearrayBuffer.data b') = c + len s /\
       (forall i, 0 <= i < Z.min (len d) c ->
          byte_at (BytearrayBuffer.data b') i = byte_at d i)) /\
  (forall a0 a1 : byte,
     BytearrayBuffer.write [x01; x02] (BytearrayBuffer.mk [a0; a1] 5)
     = (Ok tt, BytearrayBuffer.mk [a0; a1; x00; x00; x00; x01; x02] 7)).
Proof.
  split; [|reflexivity].
  intros d s c Hc Hlt. eexists. split; [by apply BytearrayBuffer_write_extend|].
  pose proof (len_nonneg s) as Hs. pose proof (len_nonneg d) as Hd.
  set (k := Z.to_nat (len s - len d + c)).
  assert (Htake : length (take (Z.to_nat c) (d ++ replicate k x00)) = Z.to_nat c).
  { rewrite length_take, length_app, length_replicate. unfold k, len in *. lia. }
  assert (Htake' : len (take (Z.to_nat c) (d ++ replicate k x00)) = c).
  { unfold len at 1. rewrite Htake. lia. }
  unfold write_post; simpl. repeat split.
  - intros i Hi. unfold byte_at. destruct (Z.ltb_spec i 0); [lia|].
    rewrite lookup_app_l by lia.
    rewrite lookup_take_lt by lia.
    rewrite lookup_app_r by (unfold len in *; lia).
    apply lookup_replicate_2. unfold k, len in *. lia.
  - intros j Hj. unfold byte_at.
    destruct (Z.ltb_spec (c + j) 0); [lia|].
    destruct (Z.ltb_spec j 0); [lia|].
    rewrite lookup_app_r by lia. f_equal. lia.
  - rewrite len_app, Htake'. lia.
  - rewrite len_app, Htake'. lia.
  - intros i Hi. unfold byte_at. destruct (Z.ltb_spec i 0); [lia|].
    rewrite lookup_app_l by lia.
    rewrite lookup_take_lt by lia.
    apply lookup_app_l. unfold len in *. lia.
Qed.

Lemma BytearrayBuffer_write_grows_witness :
  exists b',
    BytearrayBuffer.write [x01; x02] (BytearrayBuffer.mk [x0a; x0b] 5)
    = (Ok tt, b') /\
    write_post [x0a; x0b] 5 [x01; x02] b' /\
    len (BytearrayBuffer.data b') = 5 + len [x01; x02].
Proof.
  destruct BytearrayBuffer_write_grows as [H _].
  destruct (H [x0a; x0b] [x01; x02] 5) as (b' & Hw & Hp & Hl & _).
  - lia.
  - unfold len; simpl; lia.
  - exists b'. split; [exact Hw | split; [exact Hp | exact Hl]].
Defined.

(** ** The resolver *)

Lemma truthy_state o w : snd (truthy o w) = w.
Proof.
  destruct o as [|b|l]; simpl; try reflexivity.
  destruct (heap w !! l) as [[d|b|b|m a|f|o]|]; simpl; try reflexivity.
  by destruct (PeekableMmap.closed m).
Qed.

Lemma truthy_eq o w r : fst (truthy o w) = r -> truthy o w = (r, w).
Proof.
  intros <-. rewrite <- (truthy_state o w) at 3. by destruct (truthy o w).
Qed.

Lemma fresh_loc_unused (h : gmap loc hobj) : h !! fresh (dom h) = None.
Proof. apply not_elem_of_dom. apply is_fresh. Qed.

(** C8, as worded, fails on [sharing]: the buffer made from a
    [bytearray] holds a copy.  A write through the returned buffer
    changes the buffer at the new location and leaves the caller's
    [bytearray] as it was. *)
Lemma get_rawdata_bytearray_not_shared :
  let caller := ORef 1%nat in
  let run := get_rawdata sample_is_path_empty None caller true
               world_with_bytearray in
  fst run = Ok (ORef 2%nat) /\
  content_of (snd run) (ORef 2%nat) = Some [x01; x02] /\
  (let w' := snd (call_BytearrayBuffer 2%nat (BytearrayBuffer.write [xff])
                    (snd run)) in
   content_of w' (ORef 2%nat) = Some [xff; x02] /\
   content_of w' caller = Some [x01; x02]) /\
  ~ shares_content (snd run) 2%nat caller.
Proof.
  intros caller run.
  split; [by vm_compute|]. split; [by vm_compute|].
  split; [split; by vm_compute|].
  intros Hshare. specialize (Hshare [xff]).
  vm_compute in Hshare. discriminate.
Qed.

(** C8, amended. The resolver, for any path test:
    - with a non-empty path and non-empty rawdata it raises [TypeError]
      (conflicting arguments) and changes nothing;
    with an empty or absent path,
    - empty or absent rawdata gives [None];
    - non-empty [bytes] give a new [BytesBuffer] over exactly those
      bytes, cursor 0;
    - a non-empty [bytearray] gives a new [BytearrayBuffer] holding a
      copy of its bytes, cursor 0, at a location of its own, the
      caller's [bytearray] staying as it was;
    - any other non-empty object is returned unchanged when it has
      [read] and [seek], and rejected with [TypeError] (unsupported
      rawdata type) when it lacks one of them. *)
Theorem get_rawdata_spec :
  forall (is_path_empty : option string -> bool) (filepath : option string)
         (rawdata : pyobj) (writable : bool) (w : world),
    let run := get_rawdata is_path_empty filepath rawdata writable w in
    (is_path_empty filepath = false -> fst (truthy rawdata w) = Ok true ->
       run = (Raise TypeError, w)) /\
    (is_path_empty filepath = true ->
       (fst (truthy rawdata w) = Ok false -> run = (Ok ONone, w)) /\
       (forall b, rawdata = OBytes b -> b <> [] ->
          exists l, heap w !! l = None /\
            run = (Ok (ORef l),
                   set_heap (<[l := HBytesBuffer (BytesBuffer.mk b 0)]> (heap w)) w)) /\
       (forall l0 d, rawdata = ORef l0 -> heap w !! l0 = Some (HBytearray d) ->
          d <> [] ->
          exists l, l <> l0 /\ heap w !! l = None /\
            run = (Ok (ORef l),
                   set_heap (<[l := HBytearrayBuffer (BytearrayBuffer.mk d 0)]>
                               (heap w)) w) /\
            heap (snd run) !! l0 = Some (HBytearray d)) /\
       (fst (truthy rawdata w) = Ok true ->
        as_bytes w rawdata = None -> as_bytearray w rawdata = None ->
          run = if hasattr w rawdata "read" && hasattr w rawdata "seek"
                then (Ok rawdata, w) else (Raise TypeError, w))).
Proof.
  intros ipe filepath rawdata writable w run. subst run.
  unfold get_rawdata. split.
  - intros -> Ht. simpl. unfold bind. by rewrite (truthy_eq _ _ _ Ht).
  - intros ->. simpl. unfold bind. repeat split.
    + intros Ht. by rewrite (truthy_eq _ _ _ Ht).
    + intros b -> Hb. exists (fresh (dom (heap w))).
      split; [apply fresh_loc_unused|].
      destruct b as [|x b]; [done|]. reflexivity.
    + intros l0 d -> Hl0 Hd. exists (fresh (dom (heap w))).
      assert (Hne : fresh (dom (heap w)) <> l0).
      { intros Heq. pose proof (fresh_loc_unused (heap w)) as Hf.
        rewrite Heq in Hf. congruence. }
      split; [exact Hne|]. split; [apply fresh_loc_unused|].
      destruct d as [|x d]; [done|].
      simpl. rewrite Hl0. simpl. unfold get, alloc, ret. simpl. rewrite Hl0.
      split; [reflexivity|]. simpl. by rewrite lookup_insert_ne.
    + intros Ht Hb Ha. rewrite (truthy_eq _ _ _ Ht). simpl.
      unfold get. rewrite Hb, Ha.
      by destruct (hasattr w rawdata "read" && hasattr w rawdata "seek").
Qed.

Lemma get_rawdata_spec_witness :
  get_rawdata sample_is_path_empty (Some "f"%string) (OBytes [x01]) true
    world_with_file = (Raise TypeError, world_with_file) /\
  get_rawdata sample_is_path_empty None (OBytes []) true empty_world
  = (Ok ONone, empty_world) /\
  (exists l, heap empty_world !! l = None /\
     get_rawdata sample_is_path_empty None (OBytes [x01; x02]) true empty_world
     = (Ok (ORef l),
        set_heap (<[l := HBytesBuffer (BytesBuffer.mk [x01; x02] 0)]>
                    (heap empty_world)) empty_world)) /\
  (exists l, l <> 1%nat /\
     fst (get_rawdata sample_is_path_empty None (ORef 1%nat) true
            world_with_bytearray) = Ok (ORef l)) /\
  get_rawdata sample_is_path_empty None (ORef 1%nat) true world_with_objects
  = (Ok (ORef 1%nat), world_with_objects) /\
  get_rawdata sample_is_path_empty None (ORef 2%nat) true world_with_objects
  = (Raise TypeError, world_with_objects).
Proof.
  split; [|split; [|split; [|split; [|split]]]].
  - destruct (get_rawdata_spec sample_is_path_empty (Some "f"%string)
                (OBytes [x01]) true world_with_file) as [H _].
    apply H; reflexivity.
  - destruct (get_rawdata_spec sample_is_path_empty None
                (OBytes []) true empty_world) as [_ H].
    destruct (H eq_refl) as (H0 & _). apply H0. reflexivity.
  - destruct (get_rawdata_spec sample_is_path_empty None
                (OBytes [x01; x02]) true empty_world) as [_ H].
    destruct (H eq_refl) as (_ & H1 & _).
    apply (H1 [x01; x02]); [reflexivity | discriminate].
  - destruct (get_rawdata_spec sample_is_path_empty None
                (ORef 1%nat) true world_with_bytearray) as [_ H].
    destruct (H eq_refl) as (_ & _ & H2 & _).
    destruct (H2 1%nat [x01; x02]) as (l & Hne & _ & Hrun & _);
      [reflexivity | reflexivity | discriminate |].
    exists l. split; [exact Hne|]. rewrite Hrun. reflexivity.
  - destruct (get_rawdata_spec sample_is_path_empty None
                (ORef 1%nat) true world_with_objects) as [_ H].
    destruct (H eq_refl) as (_ & _ & _ & H3).
    apply H3; reflexivity.
  - destruct (get_rawdata_spec sample_is_path_empty None
                (ORef 2%nat) true world_with_objects) as [_ H].
    destruct (H eq_refl) as (_ & _ & _ & H3).
    apply H3; reflexivity.
Defined.

(** ** The scoped resolver *)

Lemma py_close_AttributeError_state o w :
  fst (py_close o w) = Raise AttributeError -> snd (py_close o w) = w.
Proof.
  destruct o as [|b|l]; simpl; try reflexivity.
  destruct (heap w !! l) as [[d|b|b|m a|f|o]|] eqn:Hl; simpl; try reflexivity.
  - unfold PeekableMmap.close.
    destruct (0 <? PeekableMmap.exports m)%nat; simpl; discriminate.
  - unfold file_close. rewrite Hl. simpl. discriminate.
  - by destruct (mem_string "close" (o_attrs o)).
Qed.

(** Closing a closable resource succeeds, marks it closed and leaves
    every other object alone. *)
Lemma py_close_closable l w :
  closable w l = true ->
  exists w', py_close (ORef l) w = (Ok tt, w') /\ is_closed w' l = true /\
             (forall l', l' <> l -> heap w' !! l' = heap w !! l') /\
             fs w' = fs w.
Proof.
  unfold closable, py_close, is_closed.
  destruct (heap w !! l) as [[d|b|b|m a|f|o]|] eqn:Hl; try discriminate.
  - intros Hex. apply Nat.eqb_eq in Hex. unfold PeekableMmap.close.
    rewrite Hex. simpl. eexists. split; [reflexivity|]. simpl.
    rewrite lookup_insert_eq. repeat split.
    intros l' Hne. by rewrite lookup_insert_ne.
  - intros _. unfold file_close. rewrite Hl. eexists. split; [reflexivity|].
    simpl. rewrite lookup_insert_eq. repeat split.
    intros l' Hne. by rewrite lookup_insert_ne.
Qed.

(** What [get_rawdata] produces when no rawdata is given and the path
    is not empty: a new, open, closable mapping or file object. *)
Lemma get_rawdata_creates ipe filepath writable w0 r w1 :
  ipe filepath = false ->
  get_rawdata ipe filepath ONone writable w0 = (Ok r, w1) ->
  exists l, r = ORef l /\ heap w0 !! l = None /\
            is_open w1 l = true /\ closable w1 l = true.
Proof.
  intros Hipe. unfold get_rawdata. rewrite Hipe. simpl.
  unfold bind at 1. simpl.
  destruct filepath as [path|]; [|discriminate].
  set (access := if negb writable then ACCESS_READ else ACCESS_WRITE).
  assert (Hopen : forall mode w l w',
            path_open path mode w = (Ok l, w') ->
            heap w = heap w0 ->
            l = fresh (dom (heap w0)) /\
            heap w' = <[l := HFile (mk_file path mode false)]> (heap w0)).
  { intros mode w l w' Ho Hh. unfold path_open in Ho. unfold_monad.
    unfold alloc in Ho. simpl in Ho.
    destruct mode; simpl in Ho;
      try (destruct (fs w !! path); [|discriminate]);
      inversion Ho; subst; simpl; rewrite ?Hh; by split. }
  assert (Hmap : forall mode w l,
            heap w = <[l := HFile (mk_file path mode false)]> (heap w0) ->
            heap w0 !! l = None ->
            try_except
              (m <- mmap_new l access;; file_close l;;; ret (ORef m))
              is_ValueError (ret (ORef l)) w = (Ok r, w1) ->
            exists l', r = ORef l' /\ heap w0 !! l' = None /\
                       is_open w1 l' = true /\ closable w1 l' = true).
  { intros mode w l Hh Hl Hrun.
    unfold try_except, mmap_new in Hrun. unfold_monad.
    rewrite Hh, lookup_insert_eq in Hrun. simpl in Hrun.
    destruct (fs w !! path) as [[|x content]|]; simpl in Hrun.
    - inversion Hrun; subst. exists l. unfold is_open, closable.
      by rewrite Hh, lookup_insert_eq.
    - unfold alloc, file_close in Hrun. simpl in Hrun.
      set (lm := fresh (dom (heap w))) in *.
      assert (Hlm : heap w !! lm = None) by apply fresh_loc_unused.
      assert (Hne : lm <> l).
      { intros ->. rewrite Hh, lookup_insert_eq in Hlm. discriminate. }
      rewrite lookup_insert_ne in Hrun by done.
      rewrite Hh, lookup_insert_eq in Hrun. simpl in Hrun.
      inversion Hrun; subst. exists lm. split; [done|]. split.
      + rewrite Hh, lookup_insert_ne in Hlm by done. exact Hlm.
      + unfold is_open, closable. simpl.
        rewrite lookup_insert_ne by done. by rewrite lookup_insert_eq.
    - inversion Hrun; subst. exists l. unfold is_open, closable.
      by rewrite Hh, lookup_insert_eq. }
  destruct writable; simpl.
  - unfold bind at 1. unfold bind at 1. unfold is_file, bind at 1, get, ret.
    destruct (bool_decide (is_Some (fs w0 !! path))).
    + unfold bind at 1.
      destruct (path_open path mode_r_plus_b w0) as [[l|e] w] eqn:Ho;
        [|discriminate].
      destruct (Hopen _ _ _ _ Ho eq_refl) as [-> Hh].
      apply (Hmap _ _ _ Hh). apply fresh_loc_unused.
    + unfold bind at 1.
      destruct (path_open path mode_w_plus_b w0) as [[l|e] w] eqn:Ho;
        [|discriminate].
      destruct (Hopen _ _ _ _ Ho eq_refl) as [-> Hh].
      apply (Hmap _ _ _ Hh). apply fresh_loc_unused.
  - unfold bind at 1. unfold bind at 1. unfold ret at 1.
    destruct (path_open path mode_rb w0) as [[l|e] w] eqn:Ho;
      [|discriminate].
    destruct (Hopen _ _ _ _ Ho eq_refl) as [-> Hh].
    apply (Hmap _ _ _ Hh). apply fresh_loc_unused.
Qed.

Lemma exit_not_closing ctx exc w :
  get_rawdata_context._close_rawdata ctx = false ->
  get_rawdata_context.__exit__ ctx exc w = (Ok ONone, w).
Proof.
  intros Hc. unfold get_rawdata_context.__exit__. unfold_monad. by rewrite Hc.
Qed.

Lemma exit_closing ctx exc w :
  get_rawdata_context._close_rawdata ctx = true ->
  get_rawdata_context.__exit__ ctx exc w
  = match py_close (get_rawdata_context._rawdata ctx) w with
    | (Ok _, w') => (Ok ONone, w')
    | (Raise e, w') => if is_AttributeError e then (Ok ONone, w')
                       else (Raise e, w')
    end.
Proof.
  intros Hc. unfold get_rawdata_context.__exit__. unfold_monad. rewrite Hc.
  by destruct (py_close (get_rawdata_context._rawdata ctx) w) as [[[]|e] w'].
Qed.

(** C9, as worded, fails on [any failure]: [__exit__] catches
    [AttributeError] only.  The scope below opens the file ["f"] as a
    mapping; its body takes a [memoryview] of the mapping and returns
    normally; closing the mapping then raises [BufferError], which
    leaves the scope, and the mapping stays open. *)
Lemma scope_exit_close_failure_surfaces :
  let mgr := get_rawdata_context.__init__ sample_is_path_empty
               (Some "f"%string) ONone true in
  let ctx := get_rawdata_context.mk (ORef 1%nat) true in
  let init := mgr world_with_file in
  let body := memoryview (ORef 1%nat) (snd init) in
  fst init = Ok ctx /\
  fst body = Ok tt /\
  fst (get_rawdata_context.__exit__ ctx None (snd body)) = Raise BufferError /\
  fst (with_context mgr memoryview world_with_file) = Raise BufferError /\
  is_open (snd (with_context mgr memoryview world_with_file)) 1%nat = true.
Proof. repeat split; by vm_compute. Qed.

(** C9, amended. After [get_rawdata_context(filepath, rawdata, writable)]
    was built:
    - when [rawdata] was supplied, [__exit__] does nothing, on a normal
      exit and on an exception alike, and the scope ends as its body
      did;
    - when it was not, the resolver returned [None] (empty path) or a
      new open mapping or file object (non-empty path); on every exit
      a closable resource is closed and the scope ends as its body did;
      an [AttributeError] raised by the close (such as [None] having no
      [close]) is suppressed; any other exception raised by the close
      is raised by [__exit__]. *)
Theorem scope_exit_spec :
  forall (is_path_empty : option string -> bool) (filepath : option string)
         (rawdata : pyobj) (writable : bool) (w0 w1 : world)
         (ctx : get_rawdata_context.t),
    let mgr := get_rawdata_context.__init__ is_path_empty filepath rawdata
                 writable in
    mgr w0 = (Ok ctx, w1) ->
    (rawdata <> ONone ->
       (forall exc w, get_rawdata_context.__exit__ ctx exc w = (Ok ONone, w)) /\
       (forall A (body : pyobj -> M world A),
          with_context mgr body w0 = body (get_rawdata_context._rawdata ctx) w1)) /\
    (rawdata = ONone ->
       (is_path_empty filepath = true ->
          get_rawdata_context._rawdata ctx = ONone) /\
       (is_path_empty filepath = false ->
          exists l, get_rawdata_context._rawdata ctx = ORef l /\
                    heap w0 !! l = None /\ is_open w1 l = true) /\
       (forall exc w,
          (forall l, get_rawdata_context._rawdata ctx = ORef l ->
                     closable w l = true ->
             exists w', get_rawdata_context.__exit__ ctx exc w = (Ok ONone, w') /\
                        is_closed w' l = true) /\
          (fst (py_close (get_rawdata_context._rawdata ctx) w)
           = Raise AttributeError ->
             get_rawdata_context.__exit__ ctx exc w = (Ok ONone, w)) /\
          (forall e, e <> AttributeError ->
             fst (py_close (get_rawdata_context._rawdata ctx) w) = Raise e ->
             fst (get_rawdata_context.__exit__ ctx exc w) = Raise e)) /\
       (forall A (body : pyobj -> M world A) (r : result A) w2 l,
          body (get_rawdata_context._rawdata ctx) w1 = (r, w2) ->
          get_rawdata_context._rawdata ctx = ORef l -> closable w2 l = true ->
          exists w3, with_context mgr body w0 = (r, w3) /\
                     is_closed w3 l = true)).
Proof.
  intros ipe filepath rawdata writable w0 w1 ctx mgr Hinit.
  assert (Hctx : exists r,
             get_rawdata ipe filepath rawdata writable w0 = (Ok r, w1) /\
             ctx = get_rawdata_context.mk r (get_rawdata_context.is_ONone rawdata)).
  { subst mgr. unfold get_rawdata_context.__init__ in Hinit. unfold_monad.
    destruct (get_rawdata ipe filepath rawdata writable w0) as [[r|e] w];
      inversion Hinit; subst. eauto. }
  destruct Hctx as (r & Hget & ->). simpl.
  assert (Hwith : forall A (body : pyobj -> M world A),
             with_context mgr body w0
             = match body r w1 with
               | (Ok a, w2) =>
                   match get_rawdata_context.__exit__
                           (get_rawdata_context.mk r
                              (get_rawdata_context.is_ONone rawdata)) None w2 with
                   | (Ok _, w3) => (Ok a, w3)
                   | (Raise e', w3) => (Raise e', w3)
                   end
               | (Raise e, w2) =>
                   match get_rawdata_context.__exit__
                           (get_rawdata_context.mk r
                              (get_rawdata_context.is_ONone rawdata)) (Some e) w2 with
                   | (Ok _, w3) => (Raise e, w3)
                   | (Raise e', w3) => (Raise e', w3)
                   end
               end).
  { intros A body. unfold with_context. unfold bind at 1. rewrite Hinit.
    reflexivity. }
  split.
  - intros Hne.
    assert (Hc : get_rawdata_context.is_ONone rawdata = false)
      by (by destruct rawdata).
    split.
    + intros exc w. by apply exit_not_closing.
    + intros A body. rewrite Hwith.
      destruct (body r w1) as [[a|e] w2]; by rewrite exit_not_closing.
  - intros ->. simpl in *. repeat split.
    + intros Hipe. unfold get_rawdata in Hget. rewrite Hipe in Hget.
      simpl in Hget. by inversion Hget.
    + intros Hipe.
      destruct (get_rawdata_creates _ _ _ _ _ _ Hipe Hget)
        as (l & -> & Hl & Ho & _). eauto.
    + intros l -> Hcl. rewrite exit_closing by done.
      cbn [get_rawdata_context._rawdata].
      destruct (py_close_closable _ _ Hcl) as (w' & -> & Hclosed & _). eauto.
    + intros Hattr. rewrite exit_closing by done.
      cbn [get_rawdata_context._rawdata].
      pose proof (py_close_AttributeError_state _ _ Hattr) as Hst.
      destruct (py_close r w) as [[[]|e] w']; simpl in *; [discriminate|].
      inversion Hattr; subst. reflexivity.
    + intros e Hne Hraise. rewrite exit_closing by done.
      cbn [get_rawdata_context._rawdata].
      destruct (py_close r w) as [[[]|e'] w']; simpl in *; [discriminate|].
      inversion Hraise; subst. by destruct e.
    + intros A body res w2 l Hbody -> Hcl. rewrite Hwith, Hbody.
      destruct (py_close_closable _ _ Hcl) as (w' & Hpc & Hclosed & _).
      exists w'. split; [|exact Hclosed].
      destruct res as [a|e]; rewrite exit_closing by done;
        cbn [get_rawdata_context._rawdata]; by rewrite Hpc.
Qed.

Lemma scope_exit_spec_witness :
  let mgr := get_rawdata_context.__init__ sample_is_path_empty
               (Some "f"%string) ONone true in
  let given := get_rawdata_context.__init__ sample_is_path_empty
                 None (OBytes [x01]) true in
  (exists w3, with_context mgr (fun _ => raise ValueError) world_with_file
              = (@Raise unit ValueError, w3) /\ is_closed w3 1%nat = true) /\
  (exists w', get_rawdata_context.__exit__
                (get_rawdata_context.mk (ORef 1%nat) true) None
                (snd (mgr world_with_file)) = (Ok ONone, w') /\
              is_closed w' 1%nat = true) /\
  get_rawdata_context.__exit__
    (get_rawdata_context.mk (ORef 0%nat) false) None (snd (given empty_world))
  = (Ok ONone, snd (given empty_world)).
Proof.
  intros mgr given.
  pose proof (scope_exit_spec sample_is_path_empty (Some "f"%string) ONone true
                world_with_file (snd (mgr world_with_file))
                (get_rawdata_context.mk (ORef 1%nat) true) eq_refl) as [_ Hnone].
  pose proof (scope_exit_spec sample_is_path_empty None (OBytes [x01]) true
                empty_world (snd (given empty_world))
                (get_rawdata_context.mk (ORef 0%nat) false) eq_refl) as [Hgiven _].
  destruct (Hnone eq_refl) as (_ & _ & Hexit & Hscope).
  split; [|split].
  - apply (Hscope unit (fun _ => raise ValueError) (Raise ValueError)
             (snd (mgr world_with_file)) 1%nat); reflexivity.
  - destruct (Hexit None (snd (mgr world_with_file))) as (Hclose & _).
    apply Hclose; reflexivity.
  - destruct Hgiven as [Hexit' _]; [discriminate|]. apply Hexit'.
Defined.

(** * Further properties of the module *)

(** ** The immutable buffer *)

(** Every [seek] of the immutable buffer either raises and leaves the
    buffer as it was, or succeeds with a cursor inside the content. *)
Lemma BytesBuffer_seek_cases pos whence (b : BytesBuffer.t) :
  (exists e, BytesBuffer.seek pos whence b = (Raise e, b)) \/
  (exists p, 0 <= p <= len (BytesBuffer.data b) /\
             BytesBuffer.seek pos whence b
             = (Ok tt, BytesBuffer.mk (BytesBuffer.data b) p)).
Proof.
  assert (Hto : forall q,
    (exists e, BytesBuffer.seek_to q b = (Raise e, b)) \/
    (exists p, 0 <= p <= len (BytesBuffer.data b) /\
               BytesBuffer.seek_to q b
               = (Ok tt, BytesBuffer.mk (BytesBuffer.data b) p))).
  { intros [|q|q]; try (left; eexists; reflexivity).
    rewrite BytesBuffer_seek_to_int.
    destruct (Z.ltb_spec q 0); [left; eauto|].
    destruct (Z.ltb_spec (len (BytesBuffer.data b)) q); [left; eauto|].
    right. exists q. split; [lia|done]. }
  destruct whence as [|w|w]; try (left; eexists; reflexivity).
  unfold BytesBuffer.seek. unfold_monad. simpl.
  destruct (w =? SEEK_SET); [apply Hto|].
  destruct (w =? SEEK_CUR).
  { destruct pos as [|q|q]; simpl; try (left; eexists; reflexivity).
    apply Hto. }
  destruct (w =? SEEK_END); [|left; eexists; reflexivity].
  destruct pos as [|q|q]; simpl; try (left; eexists; reflexivity).
  apply Hto.
Qed.

(** X1. No operation of the immutable buffer changes its content:
    reads, seeks, peeks, [tell] and write attempts, with arguments of
    any type and whether they raise or not, leave the bytes and the
    size as they were; [write] always raises and changes nothing. *)
Theorem BytesBuffer_content_never_changes :
  forall (op : bytes_op) (b : BytesBuffer.t),
    BytesBuffer.data (run_bytes_op op b) = BytesBuffer.data b /\
    fst (BytesBuffer.size (run_bytes_op op b)) = fst (BytesBuffer.size b) /\
    (forall s, BytesBuffer.write s b = (Raise OSError, b)).
Proof.
  intros op b.
  assert (Hdata : BytesBuffer.data (run_bytes_op op b) = BytesBuffer.data b).
  { destruct b as [C pos].
    destruct op as [count|p whence|count offset| |s]; simpl; try reflexivity.
    - destruct count as [|n|s].
      + by rewrite BytesBuffer_read_None.
      + by rewrite BytesBuffer_read_int.
      + reflexivity.
    - destruct (BytesBuffer_seek_cases p whence (BytesBuffer.mk C pos))
        as [[e ->]|(q & _ & ->)]; reflexivity.
    - by rewrite BytesBuffer_peek_state. }
  split; [exact Hdata|]. split; [|reflexivity].
  unfold BytesBuffer.size. unfold_monad. simpl. by rewrite Hdata.
Qed.

(** X2. A [seek] of the immutable buffer that raises leaves the buffer
    as it was, whatever the types of its arguments; an integer [whence]
    other than 0, 1, 2 raises [ValueError] and a [whence] that is not an
    integer raises [TypeError]. *)
Theorem BytesBuffer_seek_failure_atomic :
  forall (pos whence : pyarg) (b : BytesBuffer.t),
    (forall e, fst (BytesBuffer.seek pos whence b) = Raise e ->
               snd (BytesBuffer.seek pos whence b) = b) /\
    (forall w, w <> SEEK_SET -> w <> SEEK_CUR -> w <> SEEK_END ->
               BytesBuffer.seek pos (PyInt w) b = (Raise ValueError, b)) /\
    (is_None whence = true \/ (exists s, whence = PyStr s) ->
       BytesBuffer.seek pos whence b = (Raise TypeError, b)).
Proof.
  intros pos whence b. split; [|split].
  - intros e He.
    destruct (BytesBuffer_seek_cases pos whence b) as [[e' Hs]|(q & _ & Hs)];
      rewrite Hs in *; [reflexivity | discriminate].
  - intros w H0 H1 H2. unfold BytesBuffer.seek. unfold_monad. simpl.
    destruct (Z.eqb_spec w SEEK_SET); [done|].
    destruct (Z.eqb_spec w SEEK_CUR); [done|].
    destruct (Z.eqb_spec w SEEK_END); [done|]. reflexivity.
  - intros [Hn|[s ->]]; [|reflexivity].
    destruct whence; try discriminate. reflexivity.
Qed.

Lemma BytesBuffer_seek_failure_atomic_witness :
  let b := BytesBuffer.mk [x01; x02; x03] 1 in
  snd (BytesBuffer.seek (PyInt 9) (PyInt SEEK_SET) b) = b /\
  BytesBuffer.seek (PyInt 1) (PyInt 7) b = (Raise ValueError, b) /\
  BytesBuffer.seek (PyInt 1) PyNone b = (Raise TypeError, b).
Proof.
  intros b.
  destruct (BytesBuffer_seek_failure_atomic (PyInt 9) (PyInt SEEK_SET) b)
    as (H1 & _).
  destruct (BytesBuffer_seek_failure_atomic (PyInt 1) PyNone b)
    as (_ & H2 & H3).
  split; [|split].
  - apply (H1 IndexError). reflexivity.
  - apply H2; discriminate.
  - apply H3. left. reflexivity.
Defined.

(** X3. Two reads in a row return what one read of the summed count
    returns: from a cursor inside the content, [read(n)] followed by
    [read(m)] (both counts non-negative) yield bytes whose
    concatenation is the result of [read(n + m)], and leave the same
    cursor. *)
Theorem BytesBuffer_read_read :
  forall (b : BytesBuffer.t) (n m : Z),
    cursor_in_range b -> 0 <= n -> 0 <= m ->
    exists r1 b1 r2 b2,
      BytesBuffer.read (PyInt n) b = (Ok r1, b1) /\
      BytesBuffer.read (PyInt m) b1 = (Ok r2, b2) /\
      BytesBuffer.read (PyInt (n + m)) b = (Ok (r1 ++ r2), b2).
Proof.
  intros [C pos] n m Hb Hn Hm. unfold cursor_in_range in Hb. simpl in Hb.
  do 4 eexists. split; [apply BytesBuffer_read_int|].
  split; [apply BytesBuffer_read_int|].
  rewrite BytesBuffer_read_int.
  set (p1 := Z.min (pos + n) (len C)).
  replace (Z.min (pos + (n + m)) (len C)) with (Z.min (p1 + m) (len C))
    by (unfold p1; lia).
  set (p2 := Z.min (p1 + m) (len C)).
  f_equal. f_equal.
  rewrite !slice_in_range by (unfold p1, p2 in *; lia).
  replace (Z.to_nat p1) with (Z.to_nat pos + Z.to_nat (p1 - pos))%nat
    by (unfold p1; lia).
  rewrite <- drop_drop, take_take_drop. f_equal. unfold p1, p2 in *. lia.
Qed.

Lemma BytesBuffer_read_read_witness :
  exists r1 b1 r2 b2,
    BytesBuffer.read (PyInt 2) (BytesBuffer.mk [x01; x02; x03; x04] 1)
    = (Ok r1, b1) /\
    BytesBuffer.read (PyInt 5) b1 = (Ok r2, b2) /\
    BytesBuffer.read (PyInt (2 + 5)) (BytesBuffer.mk [x01; x02; x03; x04] 1)
    = (Ok (r1 ++ r2), b2).
Proof.
  apply (BytesBuffer_read_read (BytesBuffer.mk [x01; x02; x03; x04] 1) 2 5).
  - unfold cursor_in_range, len; simpl; lia.
  - lia.
  - lia.
Defined.

Lemma slice_stop_past {A} (l : list A) a e :
  len l <= e -> slice l a e = slice l a (len l).
Proof.
  intros He. unfold slice. pose proof (len_nonneg l).
  by rewrite (adjust_index_past e), (adjust_index_past (len l)) by lia.
Qed.

(** What [BytesBuffer.peek] returns for a count and an offset that are
    integers or [None]. *)
Lemma BytesBuffer_peek_int C cur n offset :
  let p := peek_position cur offset in
  BytesBuffer.peek (PyInt n) (offset_arg offset) (BytesBuffer.mk C cur)
  = (Ok (if p + n <? len C then slice C p (p + n) else slice C p (p + len C)),
     BytesBuffer.mk C cur).
Proof.
  unfold BytesBuffer.peek. unfold_monad.
  destruct offset as [k|]; simpl;
    match goal with |- context [?a + n <? len C] =>
      destruct (a + n <? len C) end; reflexivity.
Qed.

Lemma BytesBuffer_peek_all C cur offset :
  BytesBuffer.peek PyNone (offset_arg offset) (BytesBuffer.mk C cur)
  = (Ok (slice C (peek_position cur offset) (len C)), BytesBuffer.mk C cur).
Proof.
  unfold BytesBuffer.peek. unfold_monad.
  destruct offset as [k|]; simpl; by rewrite slice_from_slice.
Qed.

(** X4. On the immutable buffer the overriding [peek] does what the
    inherited [Buffer.peek] (tell, seek, read, seek back) would do:
    with the cursor inside the content, a count that is [None] or an
    integer, and an offset that is absent or inside the content, both
    return the same bytes and leave the same state. *)
Theorem BytesBuffer_peek_is_default_peek :
  forall (b : BytesBuffer.t) (count : pyarg) (offset : option Z),
    cursor_in_range b -> int_or_None count ->
    0 <= peek_position (BytesBuffer._pos b) offset <= len (BytesBuffer.data b) ->
    BytesBuffer.peek count (offset_arg offset) b = Buffer.peek count offset b.
Proof.
  intros [C cur] count offset Hb Hc Hp.
  unfold cursor_in_range in Hb. simpl in Hb, Hp.
  set (p := peek_position cur offset) in *.
  assert (Hseek : forall q c, 0 <= q <= len C ->
            BytesBuffer.seek (PyInt q) (PyInt SEEK_SET) (BytesBuffer.mk C c)
            = (Ok tt, BytesBuffer.mk C q)).
  { intros q c Hq.
    rewrite (BytesBuffer_seek_target FromStart), BytesBuffer_seek_to_int.
    simpl. destruct (Z.ltb_spec q 0); [lia|].
    destruct (Z.ltb_spec (len C) q); [lia|done]. }
  assert (Hdef : forall r c',
            BytesBuffer.read count (BytesBuffer.mk C p) = (Ok r, BytesBuffer.mk C c') ->
            Buffer.peek count offset (BytesBuffer.mk C cur)
            = (Ok r, BytesBuffer.mk C cur)).
  { intros r c' Hr. unfold Buffer.peek. unfold_monad. simpl.
    destruct offset as [k|]; simpl in *.
    - rewrite Hseek by done. fold p. rewrite Hr. by rewrite Hseek.
    - subst p. rewrite Hr. by rewrite Hseek. }
  destruct count as [|n|s]; [| |done].
  - rewrite BytesBuffer_peek_all. fold p. symmetry.
    apply (Hdef _ (len C)). apply BytesBuffer_read_None.
  - rewrite BytesBuffer_peek_int. fold p. symmetry.
    rewrite (Hdef _ _ (BytesBuffer_read_int C p n)). f_equal. f_equal.
    destruct (Z.ltb_spec (p + n) (len C)).
    + by rewrite Z.min_l by lia.
    + rewrite Z.min_r by lia. symmetry. apply slice_stop_past. lia.
Qed.

Lemma BytesBuffer_peek_is_default_peek_witness :
  let b := BytesBuffer.mk [x01; x02; x03; x04] 1 in
  BytesBuffer.peek (PyInt 9) (offset_arg (Some 2)) b
  = Buffer.peek (PyInt 9) (Some 2) b /\
  BytesBuffer.peek PyNone (offset_arg None) b = Buffer.peek PyNone None b.
Proof.
  intros b. split.
  - apply BytesBuffer_peek_is_default_peek;
      [unfold cursor_in_range, len; simpl; lia | exact I
      | unfold len; simpl; lia].
  - apply BytesBuffer_peek_is_default_peek;
      [unfold cursor_in_range, len; simpl; lia | exact I
      | unfold len; simpl; lia].
Defined.

(** X5. Where [seek] refuses an offset past the end, [peek] accepts it:
    for an offset at or past the end of the immutable buffer and a
    count that is [None] or an integer, [peek] returns no bytes and
    raises nothing, while [seek] to an offset past the end raises
    [IndexError]. *)
Theorem BytesBuffer_peek_past_end :
  forall (b : BytesBuffer.t) (count : pyarg) (k : Z),
    int_or_None count -> len (BytesBuffer.data b) <= k ->
    BytesBuffer.peek count (PyInt k) b = (Ok [], b) /\
    (len (BytesBuffer.data b) < k ->
     BytesBuffer.seek (PyInt k) (PyInt SEEK_SET) b = (Raise IndexError, b)).
Proof.
  intros [C cur] count k Hc Hk. simpl in Hk. pose proof (len_nonneg C).
  split.
  - destruct count as [|n|s]; [| |done].
    + change (PyInt k) with (offset_arg (Some k)).
      rewrite BytesBuffer_peek_all. simpl.
      by rewrite slice_start_past.
    + change (PyInt k) with (offset_arg (Some k)).
      rewrite BytesBuffer_peek_int. simpl.
      rewrite !slice_start_past by lia. by destruct (k + n <? len C).
  - intros Hlt. simpl in Hlt.
    rewrite (BytesBuffer_seek_target FromStart), BytesBuffer_seek_to_int.
    simpl. destruct (Z.ltb_spec k 0); [lia|].
    destruct (Z.ltb_spec (len C) k); [done|lia].
Qed.

Lemma BytesBuffer_peek_past_end_witness :
  let b := BytesBuffer.mk [x01; x02; x03] 1 in
  BytesBuffer.peek (PyInt 2) (PyInt 7) b = (Ok [], b) /\
  BytesBuffer.seek (PyInt 7) (PyInt SEEK_SET) b = (Raise IndexError, b).
Proof.
  intros b.
  destruct (BytesBuffer_peek_past_end b (PyInt 2) 7) as [H1 H2];
    [exact I | unfold len; simpl; lia |].
  split; [exact H1 | apply H2; unfold len; simpl; lia].
Defined.

(** X6. A negative offset counts from the end, but a count that reaches
    the end is then lost: on content of length [L], for
    [-L <= offset < 0] and [offset + count >= L], [peek(count, offset)]
    takes the slice [self[offset : offset + L]], which is empty, while
    [peek(None, offset)] returns the last [-offset] bytes. *)
Theorem BytesBuffer_peek_negative_offset :
  forall (b : BytesBuffer.t) (count k : Z),
    let L := len (BytesBuffer.data b) in
    - L <= k < 0 -> L <= k + count ->
    BytesBuffer.peek (PyInt count) (PyInt k) b = (Ok [], b) /\
    BytesBuffer.peek PyNone (PyInt k) b
    = (Ok (drop (Z.to_nat (L + k)) (BytesBuffer.data b)), b).
Proof.
  intros [C cur] count k L Hk Hc. subst L. simpl in *. split.
  - change (PyInt k) with (offset_arg (Some k)).
    rewrite BytesBuffer_peek_int. simpl.
    destruct (Z.ltb_spec (k + count) (len C)); [lia|].
    unfold slice.
    assert (Ha : adjust_index k (len C) = k + len C).
    { unfold adjust_index. destruct (Z.ltb_spec k 0); [|lia].
      destruct (Z.ltb_spec (k + len C) 0); lia. }
    assert (Hb : adjust_index (k + len C) (len C) = k + len C).
    { apply adjust_index_in_range; lia. }
    rewrite Ha, Hb. by rewrite Z.ltb_irrefl.
  - change (PyInt k) with (offset_arg (Some k)).
      rewrite BytesBuffer_peek_all. simpl.
    unfold slice.
    assert (Ha : adjust_index k (len C) = k + len C).
    { unfold adjust_index. destruct (Z.ltb_spec k 0); [|lia].
      destruct (Z.ltb_spec (k + len C) 0); lia. }
    rewrite Ha, (adjust_index_past (len C)) by lia.
    destruct (Z.ltb_spec (k + len C) (len C)); [|lia].
    rewrite take_ge; [by rewrite Z.add_comm|].
    rewrite length_drop. unfold len in *. lia.
Qed.

Lemma BytesBuffer_peek_negative_offset_witness :
  let b := BytesBuffer.mk [x01; x02; x03; x04; x05] 0 in
  BytesBuffer.peek (PyInt 9) (PyInt (-2)) b = (Ok [], b) /\
  BytesBuffer.peek PyNone (PyInt (-2)) b = (Ok [x04; x05], b).
Proof.
  intros b.
  apply (BytesBuffer_peek_negative_offset b 9 (-2));
    unfold len; simpl; lia.
Defined.

(** ** The growable buffer *)

(** The content [write(s)] leaves, from a cursor [c] that is not
    negative: the old bytes before [c] (zero-filled up to [c] when the
    content was shorter), then [s], then the old bytes after the
    written range. *)
Lemma BytearrayBuffer_write_nonneg d c s :
  0 <= c ->
  BytearrayBuffer.write s (BytearrayBuffer.mk d c)
  = (Ok tt,
     BytearrayBuffer.mk
       (take (Z.to_nat c) (d ++ replicate (Z.to_nat (len s - len d + c)) x00)
        ++ s ++ drop (Z.to_nat (c + len s)) d)
       (c + len s)).
Proof.
  intros Hc. pose proof (len_nonneg s) as Hs. pose proof (len_nonneg d) as Hd.
  destruct (Z.lt_ge_cases (len d) (c + len s)) as [Hlt|Hge].
  - rewrite BytearrayBuffer_write_extend by done.
    rewrite (drop_ge d) by (unfold len in *; lia).
    by rewrite app_nil_r.
  - unfold BytearrayBuffer.write. unfold_monad. simpl.
    destruct (Z.ltb_spec (len d) (len s + c)); [lia|]. simpl.
    replace (Z.to_nat (len s - len d + c)) with 0%nat by lia.
    simpl. rewrite app_nil_r. unfold setslice.
    rewrite !adjust_index_in_range by lia.
    destruct (Z.ltb_spec (c + len s) c); [lia|]. reflexivity.
Qed.

(** X7. A write on the growable buffer from a cursor [c >= 0] always
    succeeds and never shrinks the content: the new length is
    [max(old length, c + len(s))], offsets [c .. c + len(s) - 1] hold
    [s], every old byte outside that range is kept, a gap between the
    old end and [c] is zero-filled, and the cursor is [c + len(s)]. *)
Theorem BytearrayBuffer_write_spec :
  forall (d s : bytes) (c : Z),
    0 <= c ->
    exists d',
      BytearrayBuffer.write s (BytearrayBuffer.mk d c)
      = (Ok tt, BytearrayBuffer.mk d' (c + len s)) /\
      len d' = Z.max (len d) (c + len s) /\
      (forall j, 0 <= j < len s -> byte_at d' (c + j) = byte_at s j) /\
      (forall i, 0 <= i < len d -> i < c \/ c + len s <= i ->
                 byte_at d' i = byte_at d i) /\
      (forall i, len d <= i < c -> byte_at d' i = Some x00).
Proof.
  intros d s c Hc. eexists. split; [by apply BytearrayBuffer_write_nonneg|].
  pose proof (len_nonneg s) as Hs. pose proof (len_nonneg d) as Hd.
  set (k := Z.to_nat (len s - len d + c)).
  set (pre := take (Z.to_nat c) (d ++ replicate k x00)).
  set (post := drop (Z.to_nat (c + len s)) d).
  assert (Hpre : length pre = Z.to_nat c).
  { unfold pre. rewrite length_take, length_app, length_replicate.
    unfold k, len in *. lia. }
  assert (Hpost : length post = (length d - Z.to_nat (c + len s))%nat).
  { unfold post. by rewrite length_drop. }
  repeat split.
  - unfold len at 1. rewrite !length_app, Hpre, Hpost. unfold len in *. lia.
  - intros j Hj. unfold byte_at.
    destruct (Z.ltb_spec (c + j) 0); [lia|].
    destruct (Z.ltb_spec j 0); [lia|].
    rewrite lookup_app_r by lia.
    rewrite lookup_app_l by (unfold len in *; lia).
    f_equal. lia.
  - intros i Hi Hout. unfold byte_at. destruct (Z.ltb_spec i 0); [lia|].
    destruct Hout as [Hlt|Hge].
    + rewrite lookup_app_l by lia. unfold pre.
      rewrite lookup_take_lt by lia.
      apply lookup_app_l. unfold len in *. lia.
    + rewrite lookup_app_r by lia.
      rewrite lookup_app_r by (unfold len in *; lia).
      unfold post. rewrite lookup_drop. f_equal. unfold len in *. lia.
  - intros i Hi. unfold byte_at. destruct (Z.ltb_spec i 0); [lia|].
    rewrite lookup_app_l by lia. unfold pre.
    rewrite lookup_take_lt by lia.
    rewrite lookup_app_r by (unfold len in *; lia).
    apply lookup_replicate_2. unfold k, len in *. lia.
Qed.

Lemma BytearrayBuffer_write_spec_witness :
  exists d',
    BytearrayBuffer.write [xaa] (BytearrayBuffer.mk [x01; x02; x03] 1)
    = (Ok tt, BytearrayBuffer.mk d' (1 + len [xaa])) /\
    len d' = Z.max (len [x01; x02; x03]) (1 + len [xaa]).
Proof.
  destruct (BytearrayBuffer_write_spec [x01; x02; x03] [xaa] 1)
    as (d' & Hw & Hl & _); [lia|].
  exists d'. split; [exact Hw | exact Hl].
Defined.

(** X8. What was written can be read back: after [write(s)] from a
    cursor [c >= 0], [seek(c)] followed by [read(len(s))] returns [s]
    and leaves the cursor where the write left it. *)
Theorem BytearrayBuffer_write_read_back :
  forall (d s : bytes) (c : Z),
    0 <= c ->
    exists b1 b2,
      BytearrayBuffer.write s (BytearrayBuffer.mk d c) = (Ok tt, b1) /\
      BytearrayBuffer.seek c (PyInt SEEK_SET) b1 = (Ok tt, b2) /\
      BytearrayBuffer.read (PyInt (len s)) b2 = (Ok s, b1).
Proof.
  intros d s c Hc. do 2 eexists.
  split; [by apply BytearrayBuffer_write_nonneg|].
  split; [reflexivity|]. simpl.
  pose proof (len_nonneg s) as Hs. pose proof (len_nonneg d) as Hd.
  set (k := Z.to_nat (len s - len d + c)).
  set (pre := take (Z.to_nat c) (d ++ replicate k x00)).
  set (post := drop (Z.to_nat (c + len s)) d).
  assert (Hpre : length pre = Z.to_nat c).
  { unfold pre. rewrite length_take, length_app, length_replicate.
    unfold k, len in *. lia. }
  rewrite BytearrayBuffer_read_int.
  assert (Hlen : c + len s <= len (pre ++ s ++ post)).
  { unfold len. rewrite !length_app, Hpre. unfold len in *. lia. }
  rewrite Z.min_l by lia. f_equal. f_equal.
  rewrite slice_in_range by lia.
  rewrite drop_app_length' by lia.
  replace (c + len s - c) with (len s) by lia.
  unfold len. rewrite Nat2Z.id. by rewrite take_app_length.
Qed.

Lemma BytearrayBuffer_write_read_back_witness :
  exists b1 b2,
    BytearrayBuffer.write [xaa; xbb] (BytearrayBuffer.mk [x01] 3) = (Ok tt, b1) /\
    BytearrayBuffer.seek 3 (PyInt SEEK_SET) b1 = (Ok tt, b2) /\
    BytearrayBuffer.read (PyInt (len [xaa; xbb])) b2 = (Ok [xaa; xbb], b1).
Proof.
  apply (BytearrayBuffer_write_read_back [x01] [xaa; xbb] 3). lia.
Defined.

(** X9. [seek] on the growable buffer raises exactly when [whence] is
    not one of 0, 1, 2: [ValueError] for another integer, [TypeError]
    for a value that is not an integer; the buffer is then as it was. *)
Theorem BytearrayBuffer_seek_fails_iff :
  forall (b : BytearrayBuffer.t) (pos : Z) (whence : pyarg),
    let valid := exists wh, whence = PyInt (whence_code wh) in
    (valid -> fst (BytearrayBuffer.seek pos whence b) = Ok tt) /\
    (~ valid ->
       BytearrayBuffer.seek pos whence b
       = (Raise match whence with PyInt _ => ValueError | _ => TypeError end,
          b)).
Proof.
  intros b pos whence valid. subst valid. split.
  - intros [wh ->]. unfold BytearrayBuffer.seek. unfold_monad.
    by destruct wh.
  - intros Hinv. destruct whence as [|w|s]; try reflexivity.
    unfold BytearrayBuffer.seek. unfold_monad. simpl.
    destruct (Z.eqb_spec w SEEK_SET) as [->|];
      [exfalso; apply Hinv; by exists FromStart|].
    destruct (Z.eqb_spec w SEEK_CUR) as [->|];
      [exfalso; apply Hinv; by exists FromCurrent|].
    destruct (Z.eqb_spec w SEEK_END) as [->|];
      [exfalso; apply Hinv; by exists FromEnd|].
    reflexivity.
Qed.

Lemma BytearrayBuffer_seek_fails_iff_witness :
  let b := BytearrayBuffer.mk [x01; x02] 1 in
  fst (BytearrayBuffer.seek (-4) (PyInt 1) b) = Ok tt /\
  BytearrayBuffer.seek 0 (PyInt 3) b = (Raise ValueError, b) /\
  BytearrayBuffer.seek 0 (PyStr "end") b = (Raise TypeError, b).
Proof.
  intros b. split; [|split].
  - apply (BytearrayBuffer_seek_fails_iff b (-4) (PyInt 1)).
    by exists FromCurrent.
  - apply (BytearrayBuffer_seek_fails_iff b 0 (PyInt 3)).
    intros [[] H]; discriminate.
  - apply (BytearrayBuffer_seek_fails_iff b 0 (PyStr "end")).
    intros [[] H]; discriminate.
Defined.

Lemma BytearrayBuffer_peek_int C cur n offset :
  let p := peek_position cur offset in
  BytearrayBuffer.peek (PyInt n) (offset_arg offset) (BytearrayBuffer.mk C cur)
  = (Ok (if p + n <? len C then slice C p (p + n) else slice C p (p + len C)),
     BytearrayBuffer.mk C cur).
Proof.
  unfold BytearrayBuffer.peek. unfold_monad.
  destruct offset as [k|]; simpl;
    match goal with |- context [?a + n <? len C] =>
      destruct (a + n <? len C) end; reflexivity.
Qed.

Lemma BytearrayBuffer_peek_all C cur offset :
  BytearrayBuffer.peek PyNone (offset_arg offset) (BytearrayBuffer.mk C cur)
  = (Ok (slice C (peek_position cur offset) (len C)), BytearrayBuffer.mk C cur).
Proof.
  unfold BytearrayBuffer.peek. unfold_monad.
  destruct offset as [k|]; simpl; by rewrite slice_from_slice.
Qed.

Lemma BytearrayBuffer_read_None C pos :
  BytearrayBuffer.read PyNone (BytearrayBuffer.mk C pos)
  = (Ok (slice C pos (len C)), BytearrayBuffer.mk C (len C)).
Proof.
  unfold BytearrayBuffer.read. unfold_monad. simpl.
  by rewrite slice_from_slice.
Qed.

(** X10. On the growable buffer the overriding [peek] does what the
    inherited [Buffer.peek] would do whenever the position read from
    (the offset, or the cursor when no offset is given) is not
    negative and the count is [None] or an integer: same bytes, same
    final state, also for a position past the end. *)
Theorem BytearrayBuffer_peek_is_default_peek :
  forall (b : BytearrayBuffer.t) (count : pyarg) (offset : option Z),
    int_or_None count ->
    0 <= peek_position (BytearrayBuffer._pos b) offset ->
    BytearrayBuffer.peek count (offset_arg offset) b
    = Buffer.peek count offset b.
Proof.
  intros [C cur] count offset Hc Hp. simpl in Hp.
  set (p := peek_position cur offset) in *.
  assert (Hdef : forall r c',
            BytearrayBuffer.read count (BytearrayBuffer.mk C p)
            = (Ok r, BytearrayBuffer.mk C c') ->
            Buffer.peek count offset (BytearrayBuffer.mk C cur)
            = (Ok r, BytearrayBuffer.mk C cur)).
  { intros r c' Hr. unfold Buffer.peek. unfold_monad. simpl.
    destruct offset as [k|]; simpl in *.
    - unfold BytearrayBuffer.seek. unfold_monad. simpl.
      fold p. by rewrite Hr.
    - subst p. rewrite Hr. reflexivity. }
  destruct count as [|n|s]; [| |done].
  - rewrite BytearrayBuffer_peek_all. fold p. symmetry.
    apply (Hdef _ (len C)). apply BytearrayBuffer_read_None.
  - rewrite BytearrayBuffer_peek_int. fold p. symmetry.
    rewrite (Hdef _ _ (BytearrayBuffer_read_int C p n)). f_equal. f_equal.
    destruct (Z.ltb_spec (p + n) (len C)).
    + by rewrite Z.min_l by lia.
    + rewrite Z.min_r by lia. symmetry. apply slice_stop_past. lia.
Qed.

Lemma BytearrayBuffer_peek_is_default_peek_witness :
  let b := BytearrayBuffer.mk [x01; x02; x03; x04] (-6) in
  BytearrayBuffer.peek (PyInt 2) (offset_arg (Some 9)) b
  = Buffer.peek (PyInt 2) (Some 9) b.
Proof.
  intros b. apply BytearrayBuffer_peek_is_default_peek; [exact I | simpl; lia].
Defined.

(** X11. The inherited [Buffer.peek] has no handler around its read:
    when [read] raises (here for a [str] count) the cursor stays at the
    offset it had sought to, where the overriding
    [BytearrayBuffer.peek] raises the same error with the cursor
    untouched. *)
Theorem Buffer_peek_no_restore_on_failure :
  forall (b : BytearrayBuffer.t) (k : Z) (s : string),
    Buffer.peek (PyStr s) (Some k) b
    = (Raise AssertionError, BytearrayBuffer.mk (BytearrayBuffer.data b) k) /\
    BytearrayBuffer.peek (PyStr s) (PyInt k) b = (Raise AssertionError, b).
Proof. intros [C cur] k s. split; reflexivity. Qed.

(** ** The resolver: the path branch *)

(** With a non-empty path, rawdata that is given but empty is treated
    as no rawdata at all. *)
Lemma get_rawdata_falsy_rawdata ipe filepath rawdata writable w :
  ipe filepath = false -> fst (truthy rawdata w) = Ok false ->
  get_rawdata ipe filepath rawdata writable w
  = get_rawdata ipe filepath ONone writable w.
Proof.
  intros Hipe Ht. unfold get_rawdata. rewrite Hipe. simpl.
  unfold bind at 1. rewrite (truthy_eq _ _ _ Ht). reflexivity.
Qed.

(** X12. Given a non-empty path to an existing, non-empty file and no
    (or empty) rawdata, the resolver returns a new [PeekableMmap] over
    the file's bytes with the cursor at 0, mapped for writing when
    [writable] and read-only otherwise; the file object it opened on
    the way (mode ['r+b'] or ['rb']) is closed again, and the file
    system is unchanged. *)
Theorem get_rawdata_maps_file :
  forall (is_path_empty : option string -> bool) (path : string)
         (rawdata : pyobj) (writable : bool) (w : world) (content : bytes),
    is_path_empty (Some path) = false ->
    fst (truthy rawdata w) = Ok false ->
    fs w !! path = Some content -> content <> [] ->
    exists lf lm w',
      get_rawdata is_path_empty (Some path) rawdata writable w
      = (Ok (ORef lm), w') /\
      lf <> lm /\ heap w !! lf = None /\ heap w !! lm = None /\
      heap w' !! lm
      = Some (HMmap (PeekableMmap.mk content 0 false 0)
                (if writable then ACCESS_WRITE else ACCESS_READ)) /\
      heap w' !! lf
      = Some (HFile (mk_file path
                       (if writable then mode_r_plus_b else mode_rb) true)) /\
      fs w' = fs w.
Proof.
  intros ipe path rawdata writable w content Hipe Ht Hfs Hne.
  rewrite get_rawdata_falsy_rawdata by done.
  destruct content as [|x content]; [done|].
  assert (Hfresh : forall file : hobj,
    let lf := fresh (dom (heap w)) in
    let lm := fresh (dom (<[lf := file]> (heap w))) in
    lf <> lm /\ heap w !! lf = None /\ heap w !! lm = None).
  { intros file lf lm.
    assert (Hlf : heap w !! lf = None) by apply fresh_loc_unused.
    assert (Hlm : <[lf := file]> (heap w) !! lm = None)
      by apply fresh_loc_unused.
    assert (Hne' : lf <> lm).
    { intros Heq. rewrite <- Heq, lookup_insert_eq in Hlm. discriminate. }
    rewrite lookup_insert_ne in Hlm by done. done. }
  destruct writable.
  - set (file := HFile (mk_file path mode_r_plus_b false)).
    destruct (Hfresh file) as (Hne' & Hlf & Hlm).
    exists (fresh (dom (heap w))),
           (fresh (dom (<[fresh (dom (heap w)) := file]> (heap w)))).
    eexists. split.
    + unfold get_rawdata. rewrite Hipe. simpl. unfold bind at 1. simpl.
      unfold bind at 1. unfold bind at 1. unfold is_file, bind at 1, get, ret.
      rewrite bool_decide_eq_true_2 by (rewrite Hfs; eauto).
      unfold bind at 1. unfold path_open. unfold_monad. rewrite Hfs.
      unfold alloc. simpl. unfold mmap_new. unfold_monad. simpl.
      rewrite lookup_insert_eq. simpl. rewrite Hfs. simpl.
      unfold alloc, file_close. simpl. fold file.
      rewrite lookup_insert_ne by done. rewrite lookup_insert_eq.
      reflexivity.
    + split; [exact Hne'|]. split; [exact Hlf|]. split; [exact Hlm|].
      simpl. rewrite lookup_insert_eq.
      rewrite lookup_insert_ne by done. by rewrite lookup_insert_eq.
  - set (file := HFile (mk_file path mode_rb false)).
    destruct (Hfresh file) as (Hne' & Hlf & Hlm).
    exists (fresh (dom (heap w))),
           (fresh (dom (<[fresh (dom (heap w)) := file]> (heap w)))).
    eexists. split.
    + unfold get_rawdata. rewrite Hipe. simpl. unfold bind at 1. simpl.
      unfold bind at 1. unfold bind at 1. unfold ret at 1.
      unfold path_open. unfold_monad. rewrite Hfs.
      unfold alloc. simpl. unfold mmap_new. unfold_monad. simpl.
      rewrite lookup_insert_eq. simpl. rewrite Hfs. simpl.
      unfold alloc, file_close. simpl. fold file.
      rewrite lookup_insert_ne by done. rewrite lookup_insert_eq.
      reflexivity.
    + split; [exact Hne'|]. split; [exact Hlf|]. split; [exact Hlm|].
      simpl. rewrite lookup_insert_eq.
      rewrite lookup_insert_ne by done. by rewrite lookup_insert_eq.
Qed.

Lemma get_rawdata_maps_file_witness :
  exists lf lm w',
    get_rawdata sample_is_path_empty (Some "f"%string) (OBytes []) false
      world_with_file = (Ok (ORef lm), w') /\
    lf <> lm /\
    heap w' !! lm
    = Some (HMmap (PeekableMmap.mk [x01; x02; x03] 0 false 0) ACCESS_READ) /\
    is_closed w' lf = true.
Proof.
  destruct (get_rawdata_maps_file sample_is_path_empty "f"%string (OBytes [])
              false world_with_file [x01; x02; x03])
    as (lf & lm & w' & Hrun & Hne & _ & _ & Hm & Hf & _);
    [reflexivity | reflexivity | reflexivity | discriminate |].
  exists lf, lm, w'. split; [exact Hrun|]. split; [exact Hne|].
  split; [exact Hm|]. unfold is_closed. rewrite Hf. reflexivity.
Defined.

(** X13. When the file cannot be mapped the resolver falls back to the
    open file object: for an existing empty file it returns the file
    object it opened (mode ['r+b'], or ['rb'] when not [writable]); for
    a missing file with [writable] it creates the file empty and
    returns the ['w+b'] file object.  The object is new and open, and
    nothing else is allocated. *)
Theorem get_rawdata_file_fallback :
  forall (is_path_empty : option string -> bool) (path : string)
         (rawdata : pyobj) (writable : bool) (w : world),
    is_path_empty (Some path) = false ->
    fst (truthy rawdata w) = Ok false ->
    let lf := fresh (dom (heap w)) in
    let run := get_rawdata is_path_empty (Some path) rawdata writable w in
    heap w !! lf = None /\
    (fs w !! path = Some [] ->
       run = (Ok (ORef lf),
              set_heap
                (<[lf := HFile (mk_file path
                                  (if writable then mode_r_plus_b else mode_rb)
                                  false)]> (heap w)) w)) /\
    (fs w !! path = None -> writable = true ->
       run = (Ok (ORef lf),
              set_heap (<[lf := HFile (mk_file path mode_w_plus_b false)]> (heap w))
                (set_fs (<[path := []]> (fs w)) w))).
Proof.
  intros ipe path rawdata writable w Hipe Ht lf run. subst run.
  rewrite get_rawdata_falsy_rawdata by done.
  split; [apply fresh_loc_unused|]. split.
  - intros Hfs. unfold get_rawdata. rewrite Hipe. simpl.
    unfold bind at 1. simpl. destruct writable; simpl.
    + unfold bind at 1. unfold bind at 1. unfold is_file, bind at 1, get, ret.
      rewrite bool_decide_eq_true_2 by (rewrite Hfs; eauto).
      unfold bind at 1. unfold path_open. unfold_monad. rewrite Hfs.
      unfold alloc. simpl. unfold mmap_new. unfold_monad. simpl.
      rewrite lookup_insert_eq. simpl. rewrite Hfs. reflexivity.
    + unfold bind at 1. unfold bind at 1. unfold ret at 1.
      unfold path_open. unfold_monad. rewrite Hfs.
      unfold alloc. simpl. unfold mmap_new. unfold_monad. simpl.
      rewrite lookup_insert_eq. simpl. rewrite Hfs. reflexivity.
  - intros Hfs ->. unfold get_rawdata. rewrite Hipe. simpl.
    unfold bind at 1. simpl.
    unfold bind at 1. unfold bind at 1. unfold is_file, bind at 1, get, ret.
    rewrite bool_decide_eq_false_2
      by (rewrite Hfs; intros [? ?]; discriminate).
    unfold bind at 1. unfold path_open. unfold_monad.
    unfold alloc. simpl. unfold mmap_new. unfold_monad. simpl.
    rewrite lookup_insert_eq. simpl. rewrite lookup_insert_eq. reflexivity.
Qed.

Lemma get_rawdata_file_fallback_witness :
  let w := {| heap := ∅; fs := {[ "e"%string := [] ]} |} in
  get_rawdata sample_is_path_empty (Some "e"%string) ONone true w
  = (Ok (ORef (fresh (dom (heap w)))),
     set_heap (<[fresh (dom (heap w))
                 := HFile (mk_file "e" mode_r_plus_b false)]> (heap w)) w) /\
  get_rawdata sample_is_path_empty (Some "n"%string) ONone true w
  = (Ok (ORef (fresh (dom (heap w)))),
     set_heap (<[fresh (dom (heap w))
                 := HFile (mk_file "n" mode_w_plus_b false)]> (heap w))
       (set_fs (<[ "n"%string := [] ]> (fs w)) w)).
Proof.
  intros w. split.
  - destruct (get_rawdata_file_fallback sample_is_path_empty "e"%string ONone
                true w) as (_ & H & _); [reflexivity | reflexivity |].
    apply H. reflexivity.
  - destruct (get_rawdata_file_fallback sample_is_path_empty "n"%string ONone
                true w) as (_ & _ & H); [reflexivity | reflexivity |].
    apply H; reflexivity.
Defined.

(** X14. Read-only access never creates a file: with [writable] false
    and a non-empty path to a file that does not exist, the resolver
    raises [OSError] (from opening with ['rb']) and leaves the heap and
    the file system as they were. *)
Theorem get_rawdata_readonly_missing_file :
  forall (is_path_empty : option string -> bool) (path : string)
         (rawdata : pyobj) (w : world),
    is_path_empty (Some path) = false ->
    fst (truthy rawdata w) = Ok false ->
    fs w !! path = None ->
    get_rawdata is_path_empty (Some path) rawdata false w = (Raise OSError, w).
Proof.
  intros ipe path rawdata w Hipe Ht Hfs.
  rewrite get_rawdata_falsy_rawdata by done.
  unfold get_rawdata. rewrite Hipe. simpl. unfold bind at 1. simpl.
  unfold bind at 1. unfold bind at 1. unfold ret at 1.
  unfold path_open. unfold_monad. by rewrite Hfs.
Qed.

Lemma get_rawdata_readonly_missing_file_witness :
  get_rawdata sample_is_path_empty (Some "n"%string) ONone false world_with_file
  = (Raise OSError, world_with_file).
Proof.
  apply get_rawdata_readonly_missing_file; reflexivity.
Defined.

(** X15. Passing a buffer back through the resolver rewinds it: given
    an existing non-empty [BytesBuffer] or [BytearrayBuffer] (and no
    path) the resolver returns a new buffer of the same class over the
    same bytes with its cursor at 0, and leaves the argument, cursor
    included, as it was. *)
Theorem get_rawdata_rewraps_buffer :
  forall (is_path_empty : option string -> bool) (filepath : option string)
         (writable : bool) (w : world) (l0 : loc),
    is_path_empty filepath = true ->
    let run := get_rawdata is_path_empty filepath (ORef l0) writable w in
    let l := fresh (dom (heap w)) in
    (forall b, heap w !! l0 = Some (HBytesBuffer b) -> BytesBuffer.data b <> [] ->
       l <> l0 /\
       run = (Ok (ORef l),
              set_heap (<[l := HBytesBuffer (BytesBuffer.mk (BytesBuffer.data b) 0)]>
                          (heap w)) w) /\
       heap (snd run) !! l0 = Some (HBytesBuffer b)) /\
    (forall b, heap w !! l0 = Some (HBytearrayBuffer b) ->
       BytearrayBuffer.data b <> [] ->
       l <> l0 /\
       run = (Ok (ORef l),
              set_heap (<[l := HBytearrayBuffer
                                 (BytearrayBuffer.mk (BytearrayBuffer.data b) 0)]>
                          (heap w)) w) /\
       heap (snd run) !! l0 = Some (HBytearrayBuffer b)).
Proof.
  intros ipe filepath writable w l0 Hipe run l. subst run.
  assert (Hne : forall o, heap w !! l0 = Some o -> l <> l0).
  { intros o Hl0 Heq. pose proof (fresh_loc_unused (heap w)) as Hf.
    fold l in Hf. rewrite Heq in Hf. congruence. }
  split.
  - intros b Hl0 Hd. specialize (Hne _ Hl0). split; [exact Hne|].
    assert (Hrun : get_rawdata ipe filepath (ORef l0) writable w
                   = (Ok (ORef l),
                      set_heap (<[l := HBytesBuffer
                                         (BytesBuffer.mk (BytesBuffer.data b) 0)]>
                                  (heap w)) w)).
    { unfold get_rawdata. rewrite Hipe. simpl. unfold bind at 1. simpl.
      rewrite Hl0. destruct b as [[|x d] pos]; [done|]. simpl.
      unfold get, bind, alloc, ret. simpl. by rewrite Hl0. }
    rewrite Hrun. split; [reflexivity|]. simpl. by rewrite lookup_insert_ne.
  - intros b Hl0 Hd. specialize (Hne _ Hl0). split; [exact Hne|].
    assert (Hrun : get_rawdata ipe filepath (ORef l0) writable w
                   = (Ok (ORef l),
                      set_heap (<[l := HBytearrayBuffer
                                         (BytearrayBuffer.mk
                                            (BytearrayBuffer.data b) 0)]>
                                  (heap w)) w)).
    { unfold get_rawdata. rewrite Hipe. simpl. unfold bind at 1. simpl.
      rewrite Hl0. destruct b as [[|x d] pos]; [done|]. simpl.
      unfold get, bind, alloc, ret. simpl. by rewrite Hl0. }
    rewrite Hrun. split; [reflexivity|]. simpl. by rewrite lookup_insert_ne.
Qed.

Lemma get_rawdata_rewraps_buffer_witness :
  let w := {| heap := {[ 1%nat := HBytesBuffer (BytesBuffer.mk [x01; x02] 2);
                         2%nat := HBytearrayBuffer
                                    (BytearrayBuffer.mk [x03; x04] (-1)) ]};
              fs := ∅ |} in
  (exists l, l <> 1%nat /\
     fst (get_rawdata sample_is_path_empty None (ORef 1%nat) true w) = Ok (ORef l) /\
     heap (snd (get_rawdata sample_is_path_empty None (ORef 1%nat) true w)) !! l
     = Some (HBytesBuffer (BytesBuffer.mk [x01; x02] 0))) /\
  (exists l, l <> 2%nat /\
     fst (get_rawdata sample_is_path_empty None (ORef 2%nat) true w) = Ok (ORef l) /\
     heap (snd (get_rawdata sample_is_path_empty None (ORef 2%nat) true w)) !! l
     = Some (HBytearrayBuffer (BytearrayBuffer.mk [x03; x04] 0))).
Proof.
  intros w. split.
  - destruct (get_rawdata_rewraps_buffer sample_is_path_empty None true w 1%nat
                eq_refl) as [H _].
    destruct (H (BytesBuffer.mk [x01; x02] 2)) as (Hne & Hrun & _);
      [reflexivity | discriminate |].
    eexists. split; [exact Hne|]. rewrite Hrun. split; [reflexivity|].
    simpl. apply lookup_insert_eq.
  - destruct (get_rawdata_rewraps_buffer sample_is_path_empty None true w 2%nat
                eq_refl) as [_ H].
    destruct (H (BytearrayBuffer.mk [x03; x04] (-1))) as (Hne & Hrun & _);
      [reflexivity | discriminate |].
    eexists. split; [exact Hne|]. rewrite Hrun. split; [reflexivity|].
    simpl. apply lookup_insert_eq.
Defined.

Lemma fresh_loc_unused_insert (h : gmap loc hobj) k v :
  h !! fresh (dom (<[k := v]> h)) = None /\ k <> fresh (dom (<[k := v]> h)).
Proof.
  pose proof (fresh_loc_unused (<[k := v]> h)) as Hf.
  apply lookup_insert_None in Hf. tauto.
Qed.

(** X16. The resolver only ever adds objects: whatever its arguments
    and whether it returns or raises, every object that was in the heap
    before the call is there, unchanged, after it. *)
Theorem get_rawdata_keeps_existing_objects :
  forall (is_path_empty : option string -> bool) (filepath : option string)
         (rawdata : pyobj) (writable : bool) (w : world) (l : loc) (o : hobj),
    heap w !! l = Some o ->
    heap (snd (get_rawdata is_path_empty filepath rawdata writable w)) !! l
    = Some o.
Proof.
  intros ipe filepath rawdata writable w l o Hl.
  assert (Hfresh : fresh (dom (heap w)) <> l).
  { intros Heq. pose proof (fresh_loc_unused (heap w)) as Hf.
    rewrite Heq in Hf. congruence. }
  assert (Hfresh2 : forall k v, fresh (dom (<[k := v]> (heap w))) <> l).
  { intros k v Heq. destruct (fresh_loc_unused_insert (heap w) k v) as [Hf _].
    rewrite Heq in Hf. congruence. }
  unfold get_rawdata.
  pose proof (truthy_state rawdata w) as Hst.
  destruct (ipe filepath); simpl; unfold bind at 1;
    destruct (truthy rawdata w) as [[[|]|e] w0]; simpl in Hst; subst w0;
    simpl; try exact Hl.
  - (* no path, rawdata given *)
    unfold bind at 1, get.
    destruct (as_bytes w rawdata) as [b|].
    { unfold bind, alloc, ret. simpl. by rewrite lookup_insert_ne. }
    destruct (as_bytearray w rawdata) as [d|].
    { unfold bind, alloc, ret. simpl. by rewrite lookup_insert_ne. }
    by destruct (hasattr w rawdata "read" && hasattr w rawdata "seek").
  - (* path, no rawdata *)
    destruct filepath as [path|]; [|exact Hl].
    assert (Hmap : forall mode access (w1 : world),
              heap w1 = <[fresh (dom (heap w))
                          := HFile (mk_file path mode false)]> (heap w) ->
              heap (snd (try_except
                           (m <- mmap_new (fresh (dom (heap w))) access;;
                            file_close (fresh (dom (heap w)));;;
                            ret (ORef m))
                           is_ValueError
                           (ret (ORef (fresh (dom (heap w))))) w1)) !! l
              = Some o).
    { intros mode access w1 Hh.
      unfold try_except, mmap_new. unfold_monad.
      rewrite Hh, lookup_insert_eq. simpl.
      destruct (fs w1 !! path) as [[|x content]|]; simpl;
        try (rewrite Hh; by rewrite lookup_insert_ne).
      unfold alloc, file_close. simpl. rewrite Hh.
      destruct (fresh_loc_unused_insert (heap w) (fresh (dom (heap w)))
                  (HFile (mk_file path mode false))) as [_ Hne].
      rewrite lookup_insert_ne by (intros Heq; by apply Hne).
      rewrite lookup_insert_eq. simpl.
      rewrite !lookup_insert_ne by (done || apply Hfresh2). exact Hl. }
    destruct writable; simpl.
    + unfold bind at 1. unfold bind at 1. unfold is_file, bind at 1, get, ret.
      destruct (bool_decide (is_Some (fs w !! path))).
      * unfold bind at 1. unfold path_open. unfold_monad.
        destruct (fs w !! path); [|exact Hl].
        unfold alloc. simpl. by apply (Hmap mode_r_plus_b).
      * unfold bind at 1. unfold path_open. unfold_monad.
        unfold alloc. simpl. by apply (Hmap mode_w_plus_b).
    + unfold bind at 1. unfold bind at 1. unfold ret at 1.
      unfold path_open. unfold_monad.
      destruct (fs w !! path); [|exact Hl].
      unfold alloc. simpl. by apply (Hmap mode_rb).
Qed.

Lemma get_rawdata_keeps_existing_objects_witness :
  heap (snd (get_rawdata sample_is_path_empty None (ORef 1%nat) true
               world_with_bytearray)) !! 1%nat
  = Some (HBytearray [x01; x02]).
Proof.
  apply get_rawdata_keeps_existing_objects. reflexivity.
Defined.

(** ** The scoped resolver, further *)

(** X17. Rawdata that is given but empty (such as [b""]) beside a
    non-empty path defeats the clean-up: the resolver opens the path
    and creates an open resource, but since [rawdata] was not [None]
    the manager does not regard it as its own; [__exit__] does nothing,
    and the scope ends exactly as its body left the world, resource
    still open unless the body closed it. *)
Theorem scope_keeps_resource_open_for_empty_rawdata :
  forall (is_path_empty : option string -> bool) (filepath : option string)
         (rawdata : pyobj) (writable : bool) (w0 w1 : world)
         (ctx : get_rawdata_context.t),
    let mgr := get_rawdata_context.__init__ is_path_empty filepath rawdata
                 writable in
    is_path_empty filepath = false ->
    rawdata <> ONone -> fst (truthy rawdata w0) = Ok false ->
    mgr w0 = (Ok ctx, w1) ->
    exists l,
      get_rawdata_context._rawdata ctx = ORef l /\
      heap w0 !! l = None /\ is_open w1 l = true /\
      (forall exc w, get_rawdata_context.__exit__ ctx exc w = (Ok ONone, w)) /\
      (forall A (body : pyobj -> M world A),
         with_context mgr body w0 = body (ORef l) w1).
Proof.
  intros ipe filepath rawdata writable w0 w1 ctx mgr Hipe Hne Ht Hinit.
  assert (Hc : get_rawdata_context.is_ONone rawdata = false)
    by (by destruct rawdata).
  assert (Hctx : exists r,
             get_rawdata ipe filepath rawdata writable w0 = (Ok r, w1) /\
             ctx = get_rawdata_context.mk r false).
  { subst mgr. unfold get_rawdata_context.__init__ in Hinit. unfold_monad.
    rewrite Hc in Hinit.
    destruct (get_rawdata ipe filepath rawdata writable w0) as [[r|e] w];
      inversion Hinit; subst. eauto. }
  destruct Hctx as (r & Hget & ->).
  rewrite get_rawdata_falsy_rawdata in Hget by done.
  destruct (get_rawdata_creates _ _ _ _ _ _ Hipe Hget)
    as (l & -> & Hl & Ho & _).
  exists l. simpl. split; [done|]. split; [done|]. split; [done|]. split.
  - intros exc w. by apply exit_not_closing.
  - intros A body. unfold with_context. unfold bind at 1. rewrite Hinit.
    unfold bind at 1, get_rawdata_context.__enter__, ret.
    cbv beta iota. cbn [get_rawdata_context._rawdata].
    destruct (body (ORef l) w1) as [[a|e] w2]; by rewrite exit_not_closing.
Qed.

Lemma scope_keeps_resource_open_for_empty_rawdata_witness :
  exists l,
    heap world_with_file !! l = None /\
    is_open
      (snd (get_rawdata_context.__init__ sample_is_path_empty (Some "f"%string)
              (OBytes []) true world_with_file)) l = true /\
    with_context
      (get_rawdata_context.__init__ sample_is_path_empty (Some "f"%string)
         (OBytes []) true)
      (fun _ => ret tt) world_with_file
    = (Ok tt,
       snd (get_rawdata_context.__init__ sample_is_path_empty (Some "f"%string)
              (OBytes []) true world_with_file)).
Proof.
  destruct (scope_keeps_resource_open_for_empty_rawdata sample_is_path_empty
              (Some "f"%string) (OBytes []) true world_with_file
              (snd (get_rawdata_context.__init__ sample_is_path_empty
                      (Some "f"%string) (OBytes []) true world_with_file))
              (get_rawdata_context.mk (ORef 1%nat) false))
    as (l & _ & Hl & Ho & _ & Hw);
    [reflexivity | discriminate | reflexivity | reflexivity |].
  exists l. split; [exact Hl|]. split; [exact Ho|].
  rewrite (Hw unit (fun _ => ret tt)). reflexivity.
Defined.

(** X18. Conflicting arguments are rejected before the scope is
    entered: with a non-empty path and non-empty rawdata the [with]
    statement raises [TypeError] from the constructor, the body is
    never run and nothing is opened or changed. *)
Theorem scope_rejects_conflicting_arguments :
  forall (is_path_empty : option string -> bool) (filepath : option string)
         (rawdata : pyobj) (writable : bool) (w : world)
         (A : Type) (body : pyobj -> M world A),
    is_path_empty filepath = false ->
    fst (truthy rawdata w) = Ok true ->
    with_context
      (get_rawdata_context.__init__ is_path_empty filepath rawdata writable)
      body w
    = (Raise TypeError, w).
Proof.
  intros ipe filepath rawdata writable w A body Hipe Ht.
  unfold with_context, get_rawdata_context.__init__, get_rawdata.
  rewrite Hipe. simpl. unfold bind. by rewrite (truthy_eq _ _ _ Ht).
Qed.

Lemma scope_rejects_conflicting_arguments_witness :
  with_context
    (get_rawdata_context.__init__ sample_is_path_empty (Some "f"%string)
       (OBytes [x01]) true)
    (fun rd => memoryview rd) world_with_file
  = (Raise TypeError, world_with_file).
Proof.
  apply scope_rejects_conflicting_arguments; reflexivity.
Defined.

(** ** The mapped buffer *)

(** X19. What [PeekableMmap.peek] returns on an open mapping whose
    cursor lies inside it, for a count that is [None] or an integer and
    an offset that is absent or an integer.  Let [p] be the position
    read from (the offset, or the cursor when no offset is given):
    - with [p] in [0, size]: a count that is [None] or negative gives
      all the bytes from [p] to the end, a count [n >= 0] gives the at
      most [n] bytes from [p], and a count that does not fit
      [Py_ssize_t] raises [OverflowError];
    - with [p] outside [0, size]: [ValueError], or [OverflowError] when
      the offset does not fit [Py_ssize_t].
    In each case the mapping is left as it was. *)
Theorem PeekableMmap_peek_spec :
  forall (m : PeekableMmap.t) (count : pyarg) (offset : option Z),
    PeekableMmap.wf m -> PeekableMmap.closed m = false ->
    int_or_None count ->
    let size := len (PeekableMmap.data m) in
    let p := peek_position (PeekableMmap.pos m) offset in
    let rest := drop (Z.to_nat p) (PeekableMmap.data m) in
    (0 <= p <= size ->
       PeekableMmap.peek count (offset_arg offset) m
       = (match count with
          | PyInt n =>
              if fits_ssize_t n
              then Ok (if n <? 0 then rest else take (Z.to_nat n) rest)
              else Raise OverflowError
          | _ => Ok rest
          end, m)) /\
    (p < 0 \/ size < p ->
       PeekableMmap.peek count (offset_arg offset) m
       = (Raise (if fits_ssize_t p then ValueError else OverflowError), m)).
Proof.
  intros m count offset Hwf Hcl Hcnt size p rest.
  pose proof (PeekableMmap_peek_state count (offset_arg offset) m Hwf) as Hst.
  assert (Hpair : forall r,
            fst (PeekableMmap.peek count (offset_arg offset) m) = r ->
            PeekableMmap.peek count (offset_arg offset) m = (r, m)).
  { intros r <-. rewrite <- Hst at 3.
    by destruct (PeekableMmap.peek count (offset_arg offset) m). }
  destruct Hwf as [Hwf Hmax].
  destruct m as [d cur cl ex]. simpl in *. subst cl.
  assert (Hback : forall q,
    PeekableMmap.seek (PyInt cur) SEEK_SET (PeekableMmap.mk d q false ex)
    = (Ok tt, PeekableMmap.mk d cur false ex)).
  { intros q. by rewrite mmap_seek_back. }
  assert (Hread : forall q, 0 <= q <= len d ->
    exists q',
      PeekableMmap.read count (PeekableMmap.mk d q false ex)
      = (match count with
         | PyInt n =>
             if fits_ssize_t n
             then Ok (if n <? 0 then drop (Z.to_nat q) d
                      else take (Z.to_nat n) (drop (Z.to_nat q) d))
             else Raise OverflowError
         | _ => Ok (drop (Z.to_nat q) d)
         end, PeekableMmap.mk d q' false ex)).
  { intros q Hq.
    assert (Hall : forall k, len d - q <= k ->
              take (Z.to_nat k) (drop (Z.to_nat q) d) = drop (Z.to_nat q) d).
    { intros k Hk. apply take_ge. rewrite length_drop. unfold len in *. lia. }
    assert (Hnum : forall k,
      take (Z.to_nat (if (k <? 0) || ((if q <? len d then len d - q else 0) <? k)
                      then (if q <? len d then len d - q else 0) else k))
           (drop (Z.to_nat q) d)
      = if k <? 0 then drop (Z.to_nat q) d
        else take (Z.to_nat k) (drop (Z.to_nat q) d)).
    { intros k.
      destruct (Z.ltb_spec q (len d)), (Z.ltb_spec k 0); simpl;
        try (apply Hall; lia);
        match goal with |- context [?a <? k] =>
          destruct (Z.ltb_spec a k) end; rewrite ?Hall by lia; done. }
    unfold PeekableMmap.read, PeekableMmap.check_valid, PeekableMmap.set_pos.
    unfold_monad.
    cbn [PeekableMmap.closed PeekableMmap.data PeekableMmap.pos
           PeekableMmap.exports].
    destruct count as [|n|s]; [| |done].
    - eexists. f_equal. f_equal. rewrite Hnum.
      change (PY_SSIZE_T_MAX <? 0) with false. cbv iota.
      apply Hall. unfold PY_SSIZE_T_MAX in *. lia.
    - destruct (fits_ssize_t n); eexists; [|reflexivity].
      f_equal. f_equal. apply Hnum. }
  split.
  - intros Hp. apply Hpair.
    unfold PeekableMmap.peek, PeekableMmap.tell, PeekableMmap.check_valid,
      PeekableMmap.try_finally_reraise.
    unfold_monad. cbn [PeekableMmap.closed PeekableMmap.pos].
    destruct offset as [k|]; cbn [offset_arg is_None peek_position] in *.
    + rewrite mmap_seek_back by done.
      cbn [PeekableMmap.data PeekableMmap.exports].
      destruct (Hread k Hp) as [q' ->].
      destruct count as [|n|s]; [| |done];
        [|destruct (fits_ssize_t n)]; cbv beta iota; by rewrite Hback.
    + destruct (Hread cur Hp) as [q' ->].
      destruct count as [|n|s]; [| |done];
        [|destruct (fits_ssize_t n)]; cbv beta iota; by rewrite Hback.
  - intros Hp. apply Hpair.
    destruct offset as [k|]; cbn [offset_arg is_None peek_position] in *; [|lia].
    unfold PeekableMmap.peek, PeekableMmap.tell, PeekableMmap.check_valid,
      PeekableMmap.try_finally_reraise.
    unfold_monad. cbn [PeekableMmap.closed PeekableMmap.pos is_None].
    assert (Hs : PeekableMmap.seek (PyInt k) SEEK_SET
                   (PeekableMmap.mk d cur false ex)
                 = (Raise (if fits_ssize_t k then ValueError else OverflowError),
                    PeekableMmap.mk d cur false ex)).
    { unfold PeekableMmap.seek, PeekableMmap.check_valid. unfold_monad.
      cbn [PeekableMmap.closed PeekableMmap.data PeekableMmap.pos].
      destruct (fits_ssize_t k); cbn [negb]; [|reflexivity].
      change (fits_int SEEK_SET) with true. cbn [negb].
      change (0 <=? SEEK_SET) with true. change (SEEK_SET <=? 2) with true.
      change (SEEK_SET =? SEEK_SET) with true. cbn [andb].
      destruct (Z.ltb_spec (len d) k), (Z.ltb_spec k 0); cbn [orb];
        try reflexivity. lia. }
    rewrite Hs. cbv beta iota. by rewrite Hback.
Qed.

Lemma PeekableMmap_peek_spec_witness :
  let m := PeekableMmap.mk [x01; x02; x03; x04] 1 false 0 in
  PeekableMmap.peek (PyInt 2) (offset_arg None) m = (Ok [x02; x03], m) /\
  PeekableMmap.peek (PyInt (-1)) (offset_arg (Some 2)) m = (Ok [x03; x04], m) /\
  PeekableMmap.peek (PyInt (2 ^ 64)) (offset_arg None) m
  = (Raise OverflowError, m) /\
  PeekableMmap.peek PyNone (offset_arg (Some 9)) m = (Raise ValueError, m).
Proof.
  intros m.
  assert (Hwf : PeekableMmap.wf m)
    by (unfold PeekableMmap.wf, len, PY_SSIZE_T_MAX; simpl; lia).
  split; [|split; [|split]].
  - destruct (PeekableMmap_peek_spec m (PyInt 2) None Hwf eq_refl I) as [H _].
    apply H. unfold len; simpl; lia.
  - destruct (PeekableMmap_peek_spec m (PyInt (-1)) (Some 2) Hwf eq_refl I)
      as [H _].
    apply H. unfold len; simpl; lia.
  - destruct (PeekableMmap_peek_spec m (PyInt (2 ^ 64)) None Hwf eq_refl I)
      as [H _].
    apply H. unfold len; simpl; lia.
  - destruct (PeekableMmap_peek_spec m PyNone (Some 9) Hwf eq_refl I) as [_ H].
    apply H. right. unfold len; simpl; lia.
Defined.

(** A run of the cursor-range invariant of the immutable buffer: a
    failing seek, then a read past the end. *)
Lemma BytesBuffer_cursor_in_range_preserved_witness :
  let b := BytesBuffer.mk [x01; x02; x03] 1 in
  cursor_in_range (run_bytes_op (OpSeek (PyInt (-4)) (PyInt SEEK_CUR)) b) /\
  cursor_in_range (run_bytes_op (OpRead (PyInt 9)) b).
Proof.
  intros b.
  assert (Hb : cursor_in_range b)
    by (unfold cursor_in_range, len; simpl; lia).
  split.
  - apply BytesBuffer_cursor_in_range_preserved; [exact I | exact Hb].
  - apply BytesBuffer_cursor_in_range_preserved; [simpl; lia | exact Hb].
Defined.
